(** * app/views.py: permission-scoped record access and export
    A shallow embedding of the Django views of [app/views.py] together with
    the part of the ORM, of the session and of [xlwt] that the views drive.
    The views run in a state-and-exception monad over the database and the
    session; the classes declared in [app/forms.py] and [app/filters.py] are
    parameters of the views. *)

From stdpp Require Import gmap strings pretty list fin_maps.

Open Scope string_scope.

(** ** Values, users, records *)

(** A Python value as the views meet it: a column value or a cleaned form
    value. [str] is Python's [str()]. *)
Inductive value :=
| VStr (s : string)
| VNone
| VUser (k : nat).

Definition str (v : value) : string :=
  match v with
  | VStr s => s
  | VNone => "None"
  | VUser k => "User object (" ++ pretty k ++ ")"
  end.

(** [django.contrib.auth.models.User], the columns the views read. *)
Record User := mkUser {
  user_pk : nat;
  username : string;
  is_superuser : bool
}.

(** [request.user]: a [User] of the session, or [AnonymousUser]. *)
Inductive RequestUser :=
| AnonymousUser
| Authenticated (u : User).

Definition is_authenticated (u : RequestUser) : bool :=
  match u with AnonymousUser => false | Authenticated _ => true end.

Definition has_superuser (u : RequestUser) : bool :=
  match u with AnonymousUser => false | Authenticated u => is_superuser u end.

(** [app.models.MyTable]: an instance, stored or not. [mt_id] is the primary
    key ([None] until the first save), [mt_user] the owner's key ([None] until
    an owner is assigned). *)
Record MyTable := mkMyTable {
  mt_id : option nat;
  mt_user : option nat;
  client_name : value;
  date : value;
  modified_at : value;
  contact_number : value;
  vendor_name : value;
  vendor_company : value;
  rate : value;
  currency : value;
  contract_type : value;
  status : value;
  comments : value
}.

#[export] Instance value_eq_dec : EqDecision value.
Proof. solve_decision. Defined.
#[export] Instance User_eq_dec : EqDecision User.
Proof. solve_decision. Defined.
#[export] Instance RequestUser_eq_dec : EqDecision RequestUser.
Proof. solve_decision. Defined.
#[export] Instance MyTable_eq_dec : EqDecision MyTable.
Proof. solve_decision. Defined.

(** [MyTable()]: nothing assigned yet. *)
Definition MyTable_new : MyTable :=
  mkMyTable None None VNone VNone VNone VNone VNone VNone VNone VNone VNone VNone VNone.

Definition set_user (k : option nat) (r : MyTable) : MyTable :=
  mkMyTable (mt_id r) k (client_name r) (date r) (modified_at r)
    (contact_number r) (vendor_name r) (vendor_company r) (rate r)
    (currency r) (contract_type r) (status r) (comments r).

Definition set_id (k : option nat) (r : MyTable) : MyTable :=
  mkMyTable k (mt_user r) (client_name r) (date r) (modified_at r)
    (contact_number r) (vendor_name r) (vendor_company r) (rate r)
    (currency r) (contract_type r) (status r) (comments r).

(** [setattr(instance, name, v)] for the names a model form can bind; an
    unknown name leaves the instance as it is. *)
Definition setattr (name : string) (v : value) (r : MyTable) : MyTable :=
  let '(mkMyTable i u cn d m c vn vc ra cu ct s co) := r in
  if name =? "user" then
    mkMyTable i (match v with VUser k => Some k | _ => None end)
      cn d m c vn vc ra cu ct s co
  else if name =? "client_name" then mkMyTable i u v d m c vn vc ra cu ct s co
  else if name =? "date" then mkMyTable i u cn v m c vn vc ra cu ct s co
  else if name =? "modified_at" then mkMyTable i u cn d v c vn vc ra cu ct s co
  else if name =? "contact_number" then mkMyTable i u cn d m v vn vc ra cu ct s co
  else if name =? "vendor_name" then mkMyTable i u cn d m c v vc ra cu ct s co
  else if name =? "vendor_company" then mkMyTable i u cn d m c vn v ra cu ct s co
  else if name =? "rate" then mkMyTable i u cn d m c vn vc v cu ct s co
  else if name =? "currency" then mkMyTable i u cn d m c vn vc ra v ct s co
  else if name =? "contract_type" then mkMyTable i u cn d m c vn vc ra cu v s co
  else if name =? "status" then mkMyTable i u cn d m c vn vc ra cu ct v co
  else if name =? "comments" then mkMyTable i u cn d m c vn vc ra cu ct s v
  else r.

(** ** The database and the session *)

Record Database := mkDatabase {
  auth_user : list User;        (* table of accounts *)
  app_mytable : list MyTable;   (* table of records, in storage order *)
  mytable_seq : nat             (* next primary key of [app_mytable] *)
}.

Definition QueryDict := list (string * string).

Record HttpRequest := mkRequest {
  method : string;
  GET : QueryDict;
  POST : QueryDict
}.

(** What a request runs against: the database, the user of the session
    ([request.user]) and the flash messages queued for the next page. *)
Record State := mkState {
  db : Database;
  session_user : RequestUser;
  messages : list string
}.

Inductive exn :=
| MyTable_DoesNotExist
| MultipleObjectsReturned
| User_DoesNotExist
| RelatedObjectDoesNotExist
| IntegrityError
| IndexError
| TypeError (msg : string)
| FieldError (msg : string)
| ValueError (msg : string)
| Exception (msg : string).

Definition str_exn (e : exn) : string :=
  match e with
  | MyTable_DoesNotExist => "MyTable matching query does not exist."
  | MultipleObjectsReturned => "get() returned more than one MyTable"
  | User_DoesNotExist => "User matching query does not exist."
  | RelatedObjectDoesNotExist => "MyTable has no user."
  | IntegrityError => "NOT NULL constraint failed: app_mytable.user_id"
  | IndexError => "tuple index out of range"
  | TypeError m | FieldError m | ValueError m | Exception m => m
  end.

(** ** The monad of a view: state and exceptions *)

Inductive outcome (A : Type) :=
| Return (a : A)
| Raise (e : exn).
Arguments Return {A} a.
Arguments Raise {A} e.

Definition M (A : Type) : Type := State → outcome A * State.

#[export] Instance M_ret : MRet M := λ A a st, (Return a, st).
#[export] Instance M_bind : MBind M := λ A B f m st,
  match m st with
  | (Return a, st') => f a st'
  | (Raise e, st') => (Raise e, st')
  end.

Definition raise {A} (e : exn) : M A := λ st, (Raise e, st).

(** [try: body except ... as error: handler(error)]. *)
Definition try_except {A} (body : M A) (handler : exn → M A) : M A := λ st,
  match body st with
  | (Return a, st') => (Return a, st')
  | (Raise e, st') => handler e st'
  end.

Definition get_db : M Database := λ st, (Return (db st), st).
Definition put_db (d : Database) : M unit := λ st,
  (Return (), mkState d (session_user st) (messages st)).
Definition request_user : M RequestUser := λ st, (Return (session_user st), st).
Definition set_request_user (u : RequestUser) : M unit := λ st,
  (Return (), mkState (db st) u (messages st)).
Definition add_message (m : string) : M unit := λ st,
  (Return (), mkState (db st) (session_user st) (messages st ++ [m])).

(** ** The ORM calls of the views *)

(** [MyTable.objects.all()] *)
Definition objects_all : M (list MyTable) :=
  d ← get_db; mret (app_mytable d).

(** [MyTable.objects.filter(user=u)]: the lookup value must be a model
    instance or a key; [AnonymousUser] is neither and the lookup raises. *)
Definition objects_filter_user (u : RequestUser) : M (list MyTable) :=
  match u with
  | AnonymousUser =>
      raise (TypeError "Field 'id' expected a number but got AnonymousUser.")
  | Authenticated u =>
      d ← get_db; mret (filter (λ r, mt_user r = Some (user_pk u)) (app_mytable d))
  end.

(** [MyTable.objects.get(id=k)] *)
Definition objects_get (k : nat) : M MyTable :=
  d ← get_db;
  match filter (λ r, mt_id r = Some k) (app_mytable d) with
  | [] => raise MyTable_DoesNotExist
  | [r] => mret r
  | _ => raise MultipleObjectsReturned
  end.

(** [instance.user]: follows the foreign key into [auth_user]. *)
Definition related_user (r : MyTable) : M User :=
  match mt_user r with
  | None => raise RelatedObjectDoesNotExist
  | Some k =>
      d ← get_db;
      match filter (λ u, user_pk u = k) (auth_user d) with
      | u :: _ => mret u
      | [] => raise User_DoesNotExist
      end
  end.

(** [instance.user == request.user]: models are equal when their keys are. *)
Definition user_eq (owner : User) (u : RequestUser) : bool :=
  match u with
  | AnonymousUser => false
  | Authenticated u => bool_decide (user_pk owner = user_pk u)
  end.

(** [instance.user = u]: only a [User] can be assigned. *)
Definition assign_user (u : RequestUser) (r : MyTable) : M MyTable :=
  match u with
  | Authenticated u => mret (set_user (Some (user_pk u)) r)
  | AnonymousUser =>
      raise (ValueError "Cannot assign AnonymousUser: MyTable.user must be a User instance.")
  end.

(** [instance.save()]: the owner column is NOT NULL; an instance without a
    key is inserted under the next key, one with a key replaces its row (and
    is inserted under that key when no row has it). *)
Definition save (r : MyTable) : M MyTable :=
  match mt_user r with
  | None => raise IntegrityError
  | Some _ =>
      d ← get_db;
      match mt_id r with
      | None =>
          let r' := set_id (Some (mytable_seq d)) r in
          put_db (mkDatabase (auth_user d) (app_mytable d ++ [r']) (S (mytable_seq d)));;
          mret r'
      | Some k =>
          (if bool_decide (Exists (λ x, mt_id x = Some k) (app_mytable d))
           then put_db (mkDatabase (auth_user d)
                          ((λ x, if bool_decide (mt_id x = Some k) then r else x) <$> app_mytable d)
                          (mytable_seq d))
           else put_db (mkDatabase (auth_user d) (app_mytable d ++ [r])
                          (mytable_seq d `max` S k)));;
          mret r
      end
  end.

(** [instance.delete()] *)
Definition delete_instance (r : MyTable) : M unit :=
  d ← get_db;
  put_db (mkDatabase (auth_user d)
            (filter (λ x, mt_id x ≠ mt_id r) (app_mytable d))
            (mytable_seq d)).

(** ** Responses *)

Inductive Form :=
| UnboundForm (instance : option MyTable)
| BoundForm (data : QueryDict) (instance : option MyTable).

(** What a template receives. [CValidated r data] is the instance [r] as the
    validation of a model form bound to [data] leaves it: validation assigns
    the submitted fields that are valid onto the instance, also when the form
    as a whole is rejected. *)
Inductive ctx_value :=
| CForm (f : Form)
| CBool (b : bool)
| CQuerySet (qs : list MyTable)
| CInstance (r : MyTable)
| CValidated (r : MyTable) (data : QueryDict)
| CValue (v : value)
| CView (name : string).

(** A worksheet of [xlwt]: rows by index, each row its cells by column
    index; a cell is its label and whether its style is bold. *)
Abbreviation Sheet := (gmap nat (gmap nat (string * bool))).

Inductive HttpResponse :=
| Redirect (to : string)
| Render (template : string) (context : list (string * ctx_value))
| HttpResponseForbidden (body : string)
| HttpResponseServerError (body : string)
| ExcelResponse (content_type disposition : string) (sheet_name : string) (sheet : Sheet).

(** ** Local computations that may raise *)

#[export] Instance outcome_ret : MRet outcome := λ A a, Return a.
#[export] Instance outcome_bind : MBind outcome := λ A B f m,
  match m with
  | Return a => f a
  | Raise e => Raise e
  end.

(** A computation on local variables only, run inside a view. *)
Definition lift {A} (m : outcome A) : M A := λ st, (m, st).

(** [for x in xs: body], the loop variables threaded as [s]. *)
Fixpoint for_each {A S} (xs : list A) (body : A → S → outcome S) (s : S) : outcome S :=
  match xs with
  | [] => Return s
  | x :: xs' =>
      match body x s with
      | Return s' => for_each xs' body s'
      | Raise e => Raise e
      end
  end.

(** [QueryDict.get(key)]: the last value submitted under the key. *)
Definition qd_get (key : string) (q : QueryDict) : option string :=
  snd <$> last (filter (λ kv, kv.1 = key) q).

(** ** xlwt: a worksheet of the .xls format *)

Module xlwt.

Definition max_rowx : N := 65535.
Definition max_colx : N := 255.
Definition max_label : N := 32767.

(** [Worksheet.write(r, c, label, style)]: the .xls format has 65536 rows
    and 256 columns, and a sheet refuses to write a cell twice. *)
Definition write (r c : nat) (label : string) (bold : bool) (sh : Sheet) : outcome Sheet :=
  if bool_decide (max_rowx < N.of_nat r)%N then
    Raise (ValueError "row index not allowed by .xls format")
  else if bool_decide (max_colx < N.of_nat c)%N then
    Raise (ValueError "column index not an int in range(256)")
  else
    let row := default ∅ (sh !! r) in
    match row !! c with
    | Some _ => Raise (Exception "Attempt to overwrite cell")
    | None => Return (<[r := <[c := (label, bold)]> row]> sh)
    end.

Definition label_fits (cell : string * bool) : Prop :=
  (N.of_nat (String.length cell.1) ≤ max_label)%N.

(** [Workbook.save(stream)]: packing the shared strings refuses a label of
    more than 32767 characters; the stream receives the sheet. *)
Definition save (sh : Sheet) : outcome Sheet :=
  if bool_decide (map_Forall (λ _ row, map_Forall (λ _ cell, label_fits cell) row) sh)
  then Return sh
  else Raise (Exception "String longer than 32767 characters").

End xlwt.

(** [wsheet.write(rownum, col_num, f(row[col_num]), style)], the body of the
    loop over the columns of a row. *)
Definition write_cell {A} (f : A → string) (rownum : nat) (row : list A)
    (bold : bool) (col_num : nat) (wsheet : Sheet) : outcome Sheet :=
  match row !! col_num with
  | Some x => xlwt.write rownum col_num (f x) bold wsheet
  | None => Raise IndexError
  end.

(** [for col_num in range(len(row)): wsheet.write(rownum, col_num, f(row[col_num]), style)] *)
Definition write_cells {A} (f : A → string) (rownum : nat) (row : list A)
    (bold : bool) (wsheet : Sheet) : outcome Sheet :=
  for_each (seq 0 (length row)) (write_cell f rownum row bold) wsheet.

(** [for row in rows: rownum += 1; <write the cells of row>] *)
Definition write_rows (rows : list (list value)) (rownum : nat) (wsheet : Sheet)
    : outcome (nat * Sheet) :=
  for_each rows
    (λ row '(rownum, wsheet),
       let rownum := rownum + 1 in
       wsheet ← write_cells str rownum row false wsheet;
       mret (rownum, wsheet))
    (rownum, wsheet).

(** ** values_list *)

(** A column of [app_mytable] by name. *)
Definition column (name : string) (r : MyTable) : option value :=
  if name =? "client_name" then Some (client_name r)
  else if name =? "date" then Some (date r)
  else if name =? "modified_at" then Some (modified_at r)
  else if name =? "contact_number" then Some (contact_number r)
  else if name =? "vendor_name" then Some (vendor_name r)
  else if name =? "vendor_company" then Some (vendor_company r)
  else if name =? "rate" then Some (rate r)
  else if name =? "currency" then Some (currency r)
  else if name =? "contract_type" then Some (contract_type r)
  else if name =? "status" then Some (status r)
  else if name =? "comments" then Some (comments r)
  else None.

(** One selected expression of a row of the query: a column of the record,
    or [user__username] through the joined account. *)
Definition selected (name : string) (row : MyTable * option User) : outcome value :=
  if name =? "user__username" then
    match row.2 with
    | Some u => Return (VStr (username u))
    | None => Raise (FieldError "Cannot resolve keyword 'user__username' into field.")
    end
  else
    match column name row.1 with
    | Some v => Return v
    | None => Raise (FieldError ("Cannot resolve keyword '" ++ name ++ "' into field."))
    end.

(** The rows the query ranges over: the records, each with its account when
    a selected name goes through [user] (an inner join on the owner key). *)
Definition joined (names : list string) (d : Database) (qs : list MyTable)
    : list (MyTable * option User) :=
  if bool_decide ("user__username" ∈ names) then
    r ← qs;
    u ← filter (λ u, mt_user r = Some (user_pk u)) (auth_user d);
    [(r, Some u)]
  else
    (λ r, (r, None)) <$> qs.

(** The rows of the query, each the list of its selected expressions. *)
Definition select_rows (names : list string) (d : Database) (qs : list MyTable)
    : outcome (list (list value)) :=
  mapM (λ row, mapM (λ name, selected name row) names) (joined names d qs).

(** [queryset.values_list(name, ...)] *)
Definition values_list (names : list string) (qs : list MyTable) : M (list (list value)) :=
  d ← get_db;
  lift (select_rows names d qs).

#[global] Arguments write_cells : simpl never.
#[global] Arguments write_rows : simpl never.
#[global] Arguments select_rows : simpl never.
#[global] Arguments xlwt.save : simpl never.

(** [queryset.select_related('user')] only prefetches. *)
Definition select_related (name : string) (qs : list MyTable) : list MyTable := qs.

(** ** The views *)

Module views.
Section views.

(** The classes of [app/forms.py] and [app/filters.py], and the
    authentication backend, as the views use them. *)

(** [SignUpForm(data).is_valid()] against the existing accounts, and the
    account [form.save()] creates. *)
Variable SignUpForm_clean : QueryDict → list User → option User.
(** [LoginForm(data).is_valid()] *)
Variable LoginForm_valid : QueryDict → bool.
(** [authenticate(request, username=..., password=...)] *)
Variable authenticate : list User → option string → option string → option User.
(** [MyTableForm(data).is_valid()] and its [cleaned_data], by field name. *)
Variable MyTableForm_clean : QueryDict → option (list (string * value)).
(** The row predicate [FormFilter(data, queryset=...)] narrows with. *)
Variable FormFilter : QueryDict → MyTable → bool.

(** [@login_required(login_url='signin')] *)
Definition login_required (view : HttpRequest → M HttpResponse)
    (request : HttpRequest) : M HttpResponse :=
  user ← request_user;
  if is_authenticated user then view request
  else mret (Redirect "signin").

(** [ModelForm.save(commit=False)]: the cleaned values assigned to the
    instance, field by field. *)
Definition construct_instance (cleaned : list (string * value)) (instance : MyTable)
    : MyTable :=
  foldl (λ inst kv, setattr kv.1 kv.2 inst) instance cleaned.

Definition signup (request : HttpRequest) : M HttpResponse :=
  let hide_signin := false in
  user ← request_user;
  if is_authenticated user then mret (Redirect "details")
  else if method request =? "POST" then
    d ← get_db;
    match SignUpForm_clean (POST request) (auth_user d) with
    | Some account =>
        put_db (mkDatabase (auth_user d ++ [account]) (app_mytable d) (mytable_seq d));;
        let user := username account in
        add_message ("Hi " ++ user ++
                     ", Account Created Successfully. Use your credentials to login ");;
        mret (Redirect "signin")
    | None =>
        mret (Render "sign_up.html"
                [("form", CForm (BoundForm (POST request) None));
                 ("hide_signin", CBool hide_signin)])
    end
  else
    mret (Render "sign_up.html"
            [("form", CForm (UnboundForm None)); ("hide_signin", CBool hide_signin)]).

(** [login(request, user)] puts the user into the session; the [last_login]
    stamp it also writes on the account is not among the columns of [User]
    kept here. *)
Definition signin (request : HttpRequest) : M HttpResponse :=
  let hide_signin := false in
  user ← request_user;
  if is_authenticated user then mret (Redirect "details")
  else if method request =? "POST" then
    let form := BoundForm (POST request) None in
    logged_in ←
      (if LoginForm_valid (POST request) then
         let username := qd_get "username" (POST request) in
         let password := qd_get "password" (POST request) in
         d ← get_db;
         match authenticate (auth_user d) username password with
         | Some user => set_request_user (Authenticated user);; mret true
         | None => add_message " Username or Password is Incorrect";; mret false
         end
       else mret false);
    if logged_in : bool then mret (Redirect "details")
    else mret (Render "sign_in.html"
                 [("form", CForm form); ("hide_signin", CBool hide_signin)])
  else
    mret (Render "sign_in.html"
            [("form", CForm (UnboundForm None)); ("hide_signin", CBool hide_signin)]).

Definition signout (request : HttpRequest) : M HttpResponse :=
  set_request_user AnonymousUser;;
  mret (Redirect "signin").

Definition details_view (request : HttpRequest) : M HttpResponse :=
  try_except
    (user ← request_user;
     all_details ← (if has_superuser user then objects_all
                    else objects_filter_user user);
     let filtered_details := filter (λ r, FormFilter (GET request) r = true) all_details in
     mret (Render "details.html"
             [("details", CView "details"); ("filter", CQuerySet filtered_details)]))
    (λ error, mret (HttpResponseServerError ("An error occurred: " ++ str_exn error))).

Definition details : HttpRequest → M HttpResponse := login_required details_view.

Definition addnew_view (request : HttpRequest) : M HttpResponse :=
  let form := UnboundForm None in
  if method request =? "POST" then
    try_except
      (let form := BoundForm (POST request) None in
       match MyTableForm_clean (POST request) with
       | Some cleaned =>
           let new_entry := construct_instance cleaned MyTable_new in
           user ← request_user;
           new_entry ← assign_user user new_entry;
           save new_entry;;
           mret (Redirect "details")
       | None => mret (Render "form.html" [("form", CForm form)])
       end)
      (λ error, mret (HttpResponseServerError ("An error occurred: " ++ str_exn error)))
  else mret (Render "form.html" [("form", CForm form)]).

Definition addnew : HttpRequest → M HttpResponse := login_required addnew_view.

Definition edit_view (req_id : nat) (request : HttpRequest) : M HttpResponse :=
  try_except
    (edit_detail ← objects_get req_id;
     owner ← related_user edit_detail;
     user ← request_user;
     if negb (user_eq owner user || has_superuser user) then
       mret (HttpResponseForbidden "You don't have permission to edit this record.")
     else
       let contract_type := contract_type edit_detail in
       if method request =? "POST" then
         let form := BoundForm (POST request) (Some edit_detail) in
         match MyTableForm_clean (POST request) with
         | Some cleaned =>
             save (construct_instance cleaned edit_detail);;
             mret (Redirect "details")
         | None =>
             mret (Render "edit.html"
                     [("edit_detail", CValidated edit_detail (POST request));
                      ("contract_type", CValue contract_type);
                      ("form", CForm form)])
         end
       else
         let form := UnboundForm (Some edit_detail) in
         mret (Render "edit.html"
                 [("edit_detail", CInstance edit_detail);
                  ("contract_type", CValue contract_type);
                  ("form", CForm form)]))
    (λ error,
       match error with
       | MyTable_DoesNotExist => mret (HttpResponseServerError "Record not found.")
       | _ => mret (HttpResponseServerError ("An error occurred: " ++ str_exn error))
       end).

Definition edit (request : HttpRequest) (req_id : nat) : M HttpResponse :=
  login_required (edit_view req_id) request.

Definition delete_view (req_id : nat) (request : HttpRequest) : M HttpResponse :=
  try_except
    (detail ← objects_get req_id;
     owner ← related_user detail;
     user ← request_user;
     if negb (user_eq owner user || has_superuser user) then
       mret (HttpResponseForbidden "You don't have permission to delete this record.")
     else
       delete_instance detail;;
       mret (Redirect "details"))
    (λ error,
       match error with
       | MyTable_DoesNotExist => mret (HttpResponseServerError "Record not found.")
       | _ => mret (HttpResponseServerError ("An error occurred: " ++ str_exn error))
       end).

Definition delete (request : HttpRequest) (req_id : nat) : M HttpResponse :=
  login_required (delete_view req_id) request.

Definition admin_columns : list string :=
  ["Client Name"; "Entry Date"; "Modified At"; "Contact Number"; "Vendor Name";
   "Vendor Company"; "Rate"; "Currency"; "Contract Type"; "Status"; "Comments"; "User"].

Definition user_columns : list string :=
  ["Client Name"; "Entry Date"; "Modified At"; "Contact Number"; "Vendor Name";
   "Vendor Company"; "Rate"; "Currency"; "Contract Type"; "Status"; "Comments"].

Definition admin_names : list string :=
  ["client_name"; "date"; "modified_at"; "contact_number"; "vendor_name";
   "vendor_company"; "rate"; "currency"; "contract_type"; "status"; "comments";
   "user__username"].

Definition user_names : list string :=
  ["client_name"; "date"; "modified_at"; "contact_number"; "vendor_name";
   "vendor_company"; "rate"; "currency"; "contract_type"; "status"; "comments"].

(** [export_excel]; [now] is the reading of [datetime.datetime.now()].
    The view carries no decorator and no [try]. *)
Definition export_excel (now : string) (request : HttpRequest) : M HttpResponse :=
  let content_type := "application/ms-excel" in
  let disposition := "attachment; filename=Data_" ++ now ++ ".xls" in
  let wsheet : Sheet := ∅ in
  let rownum := 0 in
  user ← request_user;
  wsheet ←
    (if has_superuser user then
       let columns := admin_columns in
       wsheet ← lift (write_cells (λ s, s) rownum columns true wsheet);
       all_rows ← objects_all;
       rows ← values_list admin_names (select_related "user" all_rows);
       '(_, wsheet) ← lift (write_rows rows rownum wsheet);
       mret wsheet
     else
       let columns := user_columns in
       wsheet ← lift (write_cells (λ s, s) rownum columns true wsheet);
       own_rows ← objects_filter_user user;
       rows ← values_list user_names own_rows;
       '(_, wsheet) ← lift (write_rows rows rownum wsheet);
       mret wsheet);
  stream ← lift (xlwt.save wsheet);
  mret (ExcelResponse content_type disposition "Data" stream).

End views.
End views.

(** ** Observations, the scoping rule, integrity of the database *)

(** The record set a response of [details] hands to its template: the
    queryset under the context key [filter]. *)
Definition record_set (o : outcome HttpResponse) : option (list MyTable) :=
  match o with
  | Return (Render _ context) =>
      match filter (λ kv, kv.1 = "filter") context with
      | (_, CQuerySet qs) :: _ => Some qs
      | _ => None
      end
  | _ => None
  end.

(** The access-scoping rule in the words of the specification (section 4.1):
    an administrator reads every record, any other identity the records
    whose owner equals itself. The views are compared with it. *)
Definition visible (u : User) (d : Database) : list MyTable :=
  if is_superuser u then app_mytable d
  else filter (λ r, mt_user r = Some (user_pk u)) (app_mytable d).

(** Modelled from the spec: the filter class [FormFilter] of [app/filters.py],
    which is not among the sources. Section 4.2: a mapping of field name to
    desired value, applied as a further predicate by straightforward field
    matching; a field the query does not name is passed through. *)
Definition field_filter (query : QueryDict) (r : MyTable) : bool :=
  forallb (λ kv, match column kv.1 r with
                 | Some v => str v =? kv.2
                 | None => true
                 end) query.

(** Primary keys: unique, assigned, and below the next key of the sequence. *)
Definition key_below (n : nat) (r : MyTable) : Prop :=
  match mt_id r with Some k => k < n | None => False end.

#[export] Instance key_below_dec n r : Decision (key_below n r).
Proof. unfold key_below. destruct (mt_id r); apply _. Defined.

Definition keys_ok (d : Database) : Prop :=
  NoDup (mt_id <$> app_mytable d) ∧ Forall (key_below (mytable_seq d)) (app_mytable d).

(** Foreign keys: every record's owner is an account, and accounts have
    distinct keys. *)
Definition owners_ok (d : Database) : Prop :=
  Forall (λ r, Exists (λ u, mt_user r = Some (user_pk u)) (auth_user d)) (app_mytable d)
  ∧ NoDup (user_pk <$> auth_user d).

Definition db_ok (d : Database) : Prop := keys_ok d ∧ owners_ok d.

(** ** Example data *)

Module fixtures.
Definition alice : User := mkUser 1 "alice" false.
Definition bob : User := mkUser 2 "bob" false.
Definition root : User := mkUser 3 "root" true.

Definition contract (k owner : nat) (client : string) : MyTable :=
  mkMyTable (Some k) (Some owner) (VStr client) (VStr "2024-01-01")
    (VStr "2024-01-02") (VStr "555-0100") (VStr "Vee") (VStr "Vee Ltd")
    (VStr "10") (VStr "USD") (VStr "fixed") (VStr "open") VNone.

Definition store : Database :=
  mkDatabase [alice; bob; root]
    [contract 1 1 "acme"; contract 2 2 "zenith"; contract 3 1 "globex"] 4.

Definition session (who : RequestUser) : State := mkState store who [].

Definition get_ (query : QueryDict) : HttpRequest := mkRequest "GET" query [].
Definition post_ (data : QueryDict) : HttpRequest := mkRequest "POST" [] data.

(** A form that binds [client_name] and, to try the views against it, the
    owner too: [user] is taken from the submitted key [owner]. *)
Definition owner_binding_form (data : QueryDict) : option (list (string * value)) :=
  match qd_get "client_name" data with
  | Some c =>
      Some (("client_name", VStr c) ::
            match qd_get "owner" data with
            | Some "1" => [("user", VUser 1)]
            | Some "2" => [("user", VUser 2)]
            | _ => []
            end)
  | None => None
  end.

(** A form that binds [client_name] and [status] only. *)
Definition plain_form (data : QueryDict) : option (list (string * value)) :=
  c ← qd_get "client_name" data;
  Some (("client_name", VStr c) ::
        match qd_get "status" data with Some s => [("status", VStr s)] | None => [] end).

End fixtures.

(** ** Runs of operations *)

Inductive operation :=
| OpList (request : HttpRequest)
| OpCreate (request : HttpRequest)
| OpEdit (request : HttpRequest) (req_id : nat)
| OpDelete (request : HttpRequest) (req_id : nat)
| OpExport (now : string) (request : HttpRequest).

Section operations.
Variable MyTableForm_clean : QueryDict → option (list (string * value)).
Variable FormFilter : QueryDict → MyTable → bool.

Definition respond (op : operation) : M HttpResponse :=
  match op with
  | OpList request => views.details FormFilter request
  | OpCreate request => views.addnew MyTableForm_clean request
  | OpEdit request req_id => views.edit MyTableForm_clean request req_id
  | OpDelete request req_id => views.delete request req_id
  | OpExport now request => views.export_excel now request
  end.

(** One request: [step.1] is the user of the requester's session, [step.2]
    what is asked; the database after the response. *)
Definition perform (d : Database) (step : RequestUser * operation) : Database :=
  db (respond step.2 (mkState d step.1 [])).2.

Definition run_operations (steps : list (RequestUser * operation)) (d : Database)
    : Database :=
  foldl perform d steps.
End operations.

(** A condition on the form class [MyTableForm] of [app/forms.py], which is
    not among the sources: the form has no field bound to the model's
    [user], so no cleaned value is stored under that name. The views do not
    enforce it; the properties that need it state it. *)
Definition form_excludes_owner (clean : QueryDict → option (list (string * value))) : Prop :=
  ∀ data cleaned, clean data = Some cleaned → "user" ∉ cleaned.*1.

(** How the table of records may differ after one request. *)
Inductive table_step (d : Database) : Database → Prop :=
| step_same : table_step d d
| step_insert new :
    mt_id new = Some (mytable_seq d) →
    table_step d (mkDatabase (auth_user d) (app_mytable d ++ [new]) (S (mytable_seq d)))
| step_update k r new :
    r ∈ app_mytable d → mt_id r = Some k →
    mt_id new = Some k → mt_user new = mt_user r →
    table_step d (mkDatabase (auth_user d)
                    ((λ x, if bool_decide (mt_id x = Some k) then new else x) <$> app_mytable d)
                    (mytable_seq d))
| step_delete r :
    table_step d (mkDatabase (auth_user d)
                    (filter (λ x, mt_id x ≠ mt_id r) (app_mytable d))
                    (mytable_seq d)).


(** ** The worksheet an export is expected to hold *)

Definition cell_of {A} (f : A → string) (bold : bool) (x : A) : string * bool := (f x, bold).

(** The row of a sheet that holds the given cells from column 0 on. *)
Definition row_of_cells {A} (f : A → string) (bold : bool) (cells : list A)
    : gmap nat (string * bool) :=
  map_seq 0 (cell_of f bold <$> cells).

(** The sheet of a table: the header in row 0, bold, then one row per entry. *)
Definition sheet_of (columns : list string) (rows : list (list value)) : Sheet :=
  map_seq 0 (row_of_cells (λ s, s) true columns :: (row_of_cells str false <$> rows)).

(** The rows of a query fit a sheet when none is empty or wider than the
    format allows. *)
Definition row_fits (row : list value) : Prop := row ≠ [] ∧ (length row ≤ 256)%nat.

(** The eleven columns both exports select, in their order. *)
Definition own_columns (r : MyTable) : list value :=
  [client_name r; date r; modified_at r; contact_number r; vendor_name r;
   vendor_company r; rate r; currency r; contract_type r; status r; comments r].

(** The account a record's owner key points to, by name. *)
Definition owner_name (d : Database) (r : MyTable) : string :=
  from_option username "" (head (filter (λ u, mt_user r = Some (user_pk u)) (auth_user d))).

(** The table the specification asks the export to hold (section 4.3): one
    row per visible record, and for an administrator the owner as a twelfth
    column. *)
Definition export_row (u : User) (d : Database) (r : MyTable) : list value :=
  if is_superuser u then (own_columns r ++ [VStr (owner_name d r)])%list
  else own_columns r.

Definition export_rows (u : User) (d : Database) : list (list value) :=
  export_row u d <$> visible u d.

Definition export_columns (u : User) : list string :=
  if is_superuser u then views.admin_columns else views.user_columns.

(** The response of an export that went through. *)
Definition export_response (now : string) (u : User) (d : Database) : HttpResponse :=
  ExcelResponse "application/ms-excel" ("attachment; filename=Data_" ++ now ++ ".xls")
    "Data" (sheet_of (export_columns u) (export_rows u d)).

(** ** What the .xls format can hold *)

Definition labels_fit {A} (f : A → string) (row : list A) : Prop :=
  Forall (λ x, (N.of_nat (String.length (f x)) ≤ xlwt.max_label)%N) row.

(** A table can be serialized when it has no more rows than the format has
    below the header and no label longer than a shared string may be. *)
Definition table_fits (rows : list (list value)) : Prop :=
  (N.of_nat (length rows) ≤ xlwt.max_rowx)%N ∧ Forall (labels_fit str) rows.

#[export] Instance table_fits_dec rows : Decision (table_fits rows).
Proof. unfold table_fits, labels_fit. apply _. Defined.

(** ** Requesters of a run *)

(** The user of a session is an account of the database (or nobody is
    signed in): sessions are created by [login] from a row of [auth_user]. *)
Definition requester_known (d : Database) (who : RequestUser) : Prop :=
  match who with
  | AnonymousUser => True
  | Authenticated u => Exists (λ x, user_pk x = user_pk u) (auth_user d)
  end.

#[export] Instance requester_known_dec d who : Decision (requester_known d who).
Proof. destruct who; apply _. Defined.

(** The requester may change the record: its owner or an administrator, the
    test [edit] and [delete] make before they write. *)
Definition may_change (u : User) (r : MyTable) : Prop :=
  mt_user r = Some (user_pk u) ∨ is_superuser u = true.

(** The record a valid create submission of [u] stores: the cleaned values
    on a fresh instance, the owner set to [u], the key taken from the
    sequence. *)
Definition created (u : User) (cleaned : list (string * value)) (d : Database) : MyTable :=
  set_id (Some (mytable_seq d))
    (set_user (Some (user_pk u)) (views.construct_instance cleaned MyTable_new)).

(** The table after a successful edit: the row under the key replaced. *)
Definition replaced (k : nat) (new : MyTable) (rows : list MyTable) : list MyTable :=
  (λ x, if bool_decide (mt_id x = Some k) then new else x) <$> rows.

(** * Properties *)

(** ** Running the monad *)

Ltac run :=
  repeat (progress (unfold mbind, mret, M_bind, M_ret, try_except, raise, lift,
                      request_user, get_db, put_db, set_request_user, add_message,
                      objects_all, objects_filter_user in *; simpl in *)).

(** ** C1, C2: the record set of [details] *)

Section details_facts.
Variable FormFilter : QueryDict → MyTable → bool.

Lemma details_authenticated request st u :
  session_user st = Authenticated u →
  views.details FormFilter request st =
    (Return (Render "details.html"
               [("details", CView "details");
                ("filter", CQuerySet (filter (λ r, FormFilter (GET request) r = true)
                                        (visible u (db st))))]), st).
Proof.
  destruct st as [d who msgs]; simpl; intros ->.
  unfold views.details, views.login_required, views.details_view, visible.
  run. destruct (is_superuser u); reflexivity.
Qed.

Lemma details_anonymous request st :
  session_user st = AnonymousUser →
  views.details FormFilter request st = (Return (Redirect "signin"), st).
Proof.
  destruct st as [d who msgs]; simpl; intros ->.
  unfold views.details, views.login_required. by run.
Qed.
End details_facts.

(** C1. For an authenticated identity [u] that is not an administrator,
    [details] answers with a record set, and every record of that set is a
    stored record whose owner is [u]. *)
Theorem details_only_own_records FormFilter request st u :
  session_user st = Authenticated u →
  is_superuser u = false →
  ∃ qs, record_set (views.details FormFilter request st).1 = Some qs ∧
        ∀ r, r ∈ qs → mt_user r = Some (user_pk u) ∧ r ∈ app_mytable (db st).
Proof.
  intros Hu Hs. rewrite (details_authenticated _ _ _ u Hu). simpl.
  eexists; split; [reflexivity|].
  intros r Hr. unfold visible in Hr. rewrite Hs in Hr.
  apply list_elem_of_filter in Hr as [_ Hr].
  apply list_elem_of_filter in Hr as [Ho Hr]. done.
Qed.

Lemma fixtures_store_ok : db_ok fixtures.store.
Proof. apply (bool_decide_unpack _). vm_compute. exact I. Defined.

Lemma details_only_own_records_witness :
  ∃ qs, record_set (views.details field_filter (fixtures.get_ [])
                      (fixtures.session (Authenticated fixtures.alice))).1 = Some qs ∧
        ∀ r, r ∈ qs → mt_user r = Some 1 ∧ r ∈ app_mytable fixtures.store.
Proof.
  apply (details_only_own_records field_filter (fixtures.get_ [])
           (fixtures.session (Authenticated fixtures.alice)) fixtures.alice);
    reflexivity.
Defined.

(** C2, as stated, fails: an administrator who submits a filter receives the
    narrowed set, not the full store. *)
Lemma details_admin_full_store_fails :
  ¬ (∀ FormFilter request st u,
       session_user st = Authenticated u →
       is_superuser u = true →
       record_set (views.details FormFilter request st).1 = Some (app_mytable (db st))).
Proof.
  intros H.
  specialize (H field_filter (fixtures.get_ [("client_name", "zenith")])
                (fixtures.session (Authenticated fixtures.root)) fixtures.root
                eq_refl eq_refl).
  vm_compute in H. discriminate H.
Qed.

(** C2, amended. For an administrator the record set of [details] is the full
    store narrowed by the filter of the request; it is the full store
    whenever that filter lets every stored record through. *)
Theorem details_admin_filtered_store FormFilter request st u :
  session_user st = Authenticated u →
  is_superuser u = true →
  record_set (views.details FormFilter request st).1 =
    Some (filter (λ r, FormFilter (GET request) r = true) (app_mytable (db st))) ∧
  ((∀ r, r ∈ app_mytable (db st) → FormFilter (GET request) r = true) →
   record_set (views.details FormFilter request st).1 = Some (app_mytable (db st))).
Proof.
  intros Hu Hs. rewrite (details_authenticated _ _ _ u Hu). simpl.
  unfold visible. rewrite Hs. split; [reflexivity|].
  intros Hall. f_equal. induction (app_mytable (db st)) as [|r l IH]; [reflexivity|].
  rewrite filter_cons_True by (apply Hall; left).
  f_equal. apply IH. intros x Hx. apply Hall. by right.
Qed.

Lemma details_admin_filtered_store_witness :
  record_set (views.details field_filter (fixtures.get_ [])
                (fixtures.session (Authenticated fixtures.root))).1 =
    Some (app_mytable fixtures.store).
Proof.
  apply (details_admin_filtered_store field_filter (fixtures.get_ [])
           (fixtures.session (Authenticated fixtures.root)) fixtures.root);
    [reflexivity | reflexivity | intros r _; reflexivity].
Defined.

(** ** C10: sign-up and sign-in of a signed-in requester *)

(** C10. For a requester who is already authenticated, [signup] and [signin]
    answer with the redirect to [details] and leave the whole state (accounts,
    records, session, messages) as it was. *)
Theorem signup_signin_authenticated_noop
    SignUpForm_clean LoginForm_valid authenticate request st u :
  session_user st = Authenticated u →
  views.signup SignUpForm_clean request st = (Return (Redirect "details"), st) ∧
  views.signin LoginForm_valid authenticate request st = (Return (Redirect "details"), st).
Proof.
  destruct st as [d who msgs]; simpl; intros ->.
  unfold views.signup, views.signin. by run.
Qed.

Lemma signup_signin_authenticated_noop_witness :
  let st := fixtures.session (Authenticated fixtures.bob) in
  let data := [("username", "carol"); ("password", "s3cret")] in
  views.signup (λ _ _, Some (mkUser 9 "carol" false)) (fixtures.post_ data) st
    = (Return (Redirect "details"), st) ∧
  views.signin (λ _, true) (λ _ _ _, Some fixtures.root) (fixtures.post_ data) st
    = (Return (Redirect "details"), st).
Proof.
  apply (signup_signin_authenticated_noop _ _ _ _ _ fixtures.bob). reflexivity.
Defined.

(** ** C6: the owner of a new record *)

Lemma setattr_id name v r : mt_id (setattr name v r) = mt_id r.
Proof. destruct r. unfold setattr. repeat case_match; reflexivity. Qed.

Lemma setattr_user name v r : name ≠ "user" → mt_user (setattr name v r) = mt_user r.
Proof.
  intros Hn. destruct r. unfold setattr.
  destruct (String.eqb_spec name "user") as [->|_]; [done|].
  repeat case_match; reflexivity.
Qed.

Lemma construct_instance_id cleaned r :
  mt_id (views.construct_instance cleaned r) = mt_id r.
Proof.
  unfold views.construct_instance.
  revert r. induction cleaned as [|kv l IH]; intros r; [reflexivity|].
  simpl. by rewrite IH, setattr_id.
Qed.

Lemma construct_instance_user cleaned r :
  "user" ∉ cleaned.*1 →
  mt_user (views.construct_instance cleaned r) = mt_user r.
Proof.
  unfold views.construct_instance.
  revert r. induction cleaned as [|kv l IH]; intros r Hn; [reflexivity|].
  simpl in *. apply not_elem_of_cons in Hn as [Hk Hl].
  rewrite IH by done. apply setattr_user. congruence.
Qed.

(** C6. A valid create submission by the authenticated requester [u] stores
    exactly one new record, under the next key, and its owner is [u],
    whatever owner value the cleaned form data carries. *)
Theorem addnew_owner_is_requester MyTableForm_clean request st u cleaned :
  session_user st = Authenticated u →
  method request = "POST" →
  MyTableForm_clean (POST request) = Some cleaned →
  ∃ new_entry,
    views.addnew MyTableForm_clean request st =
      (Return (Redirect "details"),
       mkState (mkDatabase (auth_user (db st)) (app_mytable (db st) ++ [new_entry])
                  (S (mytable_seq (db st))))
         (session_user st) (messages st)) ∧
    mt_user new_entry = Some (user_pk u) ∧
    mt_id new_entry = Some (mytable_seq (db st)).
Proof.
  destruct st as [d who msgs]; simpl; intros -> Hm Hc.
  unfold views.addnew, views.login_required, views.addnew_view.
  run. rewrite Hm, Hc. simpl. unfold assign_user, save. run.
  rewrite construct_instance_id. simpl.
  eexists. split; [reflexivity|]. split; reflexivity.
Qed.

Lemma addnew_owner_is_requester_witness :
  ∃ new_entry,
    views.addnew fixtures.owner_binding_form
      (fixtures.post_ [("client_name", "initech"); ("owner", "1")])
      (fixtures.session (Authenticated fixtures.bob)) =
      (Return (Redirect "details"),
       mkState (mkDatabase (auth_user fixtures.store)
                  (app_mytable fixtures.store ++ [new_entry]) 5)
         (Authenticated fixtures.bob) []) ∧
    mt_user new_entry = Some 2 ∧
    mt_id new_entry = Some 4.
Proof.
  apply (addnew_owner_is_requester fixtures.owner_binding_form
           (fixtures.post_ [("client_name", "initech"); ("owner", "1")])
           (fixtures.session (Authenticated fixtures.bob)) fixtures.bob
           [("client_name", VStr "initech"); ("user", VUser 1)]);
    reflexivity.
Defined.

(** ** The ORM on a well-formed database *)

Lemma filter_none {A} (P : A → Prop) `{∀ x, Decision (P x)} (l : list A) :
  (∀ x, x ∈ l → ¬ P x) → filter P l = [].
Proof.
  induction l as [|x l IH]; intros Hl; [reflexivity|].
  rewrite filter_cons_False by (apply Hl; left).
  apply IH. intros y Hy. apply Hl. by right.
Qed.

Lemma filter_singleton {A K} (key : A → K) (P : A → Prop) `{∀ x, Decision (P x)}
    (l : list A) (x : A) :
  NoDup (key <$> l) → x ∈ l → P x → (∀ y, P y → key y = key x) →
  filter P l = [x].
Proof.
  intros Hnd Hx HP Hkey. induction l as [|y l IH]; [by apply elem_of_nil in Hx|].
  rewrite fmap_cons in Hnd. apply NoDup_cons in Hnd as [Hy Hnd].
  apply elem_of_cons in Hx as [->|Hx].
  - rewrite filter_cons_True by done. f_equal.
    apply filter_none. intros z Hz HPz. apply Hy.
    rewrite <- (Hkey z HPz). by apply list_elem_of_fmap_2.
  - rewrite filter_cons_False; [by apply IH|].
    intros HPy. apply Hy. rewrite (Hkey y HPy). by apply list_elem_of_fmap_2.
Qed.

Lemma filter_key_unique (l : list MyTable) r k :
  NoDup (mt_id <$> l) → r ∈ l → mt_id r = Some k →
  filter (λ x, mt_id x = Some k) l = [r].
Proof.
  intros Hnd Hr Hk. apply (filter_singleton mt_id); [done..|]. congruence.
Qed.

Lemma objects_get_found st k r :
  keys_ok (db st) → r ∈ app_mytable (db st) → mt_id r = Some k →
  objects_get k st = (Return r, st).
Proof.
  intros [Hnd _] Hr Hk. unfold objects_get. run.
  by rewrite (filter_key_unique _ r k).
Qed.

Lemma objects_get_missing st k :
  (∀ r, r ∈ app_mytable (db st) → mt_id r ≠ Some k) →
  objects_get k st = (Raise MyTable_DoesNotExist, st).
Proof.
  intros Hno. unfold objects_get. run. by rewrite filter_none.
Qed.

Lemma related_user_found st r :
  owners_ok (db st) → r ∈ app_mytable (db st) →
  ∃ owner, related_user r st = (Return owner, st) ∧
           owner ∈ auth_user (db st) ∧ mt_user r = Some (user_pk owner).
Proof.
  intros [Hfk _] Hr. rewrite Forall_forall in Hfk.
  destruct (proj1 (Exists_exists _ _) (Hfk r Hr)) as (u & Hu & Hru).
  unfold related_user. rewrite Hru. run.
  destruct (filter _ (auth_user (db st))) as [|owner rest] eqn:Hf.
  - exfalso. eapply (filter_nil_not_elem_of _ _ u); [exact Hf|reflexivity|exact Hu].
  - assert (owner ∈ filter (λ x, user_pk x = user_pk u) (auth_user (db st))) as Ho
      by (rewrite Hf; left).
    apply list_elem_of_filter in Ho as [Hpk Ho].
    exists owner. by rewrite Hpk.
Qed.

(** ** C3: mutating a record of somebody else *)

Lemma login_required_redirects (view : HttpRequest → M HttpResponse) request st :
  session_user st = AnonymousUser →
  views.login_required view request st = (Return (Redirect "signin"), st).
Proof.
  destruct st as [d who msgs]; simpl; intros ->. unfold views.login_required. by run.
Qed.

Lemma login_required_passes (view : HttpRequest → M HttpResponse) request st u :
  session_user st = Authenticated u →
  views.login_required view request st = view request st.
Proof.
  destruct st as [d who msgs]; simpl; intros ->. unfold views.login_required. by run.
Qed.

(** C3, as stated, fails: a requester without a signed-in user is not an
    administrator and owns nothing, and [login_required] answers with the
    redirect to sign-in, not with 403 Forbidden. *)
Lemma edit_foreign_record_anonymous_redirect :
  ¬ (∀ MyTableForm_clean request req_id st r,
       db_ok (db st) →
       has_superuser (session_user st) = false →
       r ∈ app_mytable (db st) →
       mt_id r = Some req_id →
       (∀ u, session_user st = Authenticated u → mt_user r ≠ Some (user_pk u)) →
       views.edit MyTableForm_clean request req_id st =
         (Return (HttpResponseForbidden "You don't have permission to edit this record."),
          st) ∧
       views.delete request req_id st =
         (Return (HttpResponseForbidden "You don't have permission to delete this record."),
          st)).
Proof.
  intros H.
  destruct (H fixtures.plain_form (fixtures.post_ [("client_name", "mine now")]) 1
              (fixtures.session AnonymousUser) (fixtures.contract 1 1 "acme"))
    as [Hedit _].
  - exact fixtures_store_ok.
  - reflexivity.
  - vm_compute. left.
  - reflexivity.
  - intros u Hu. discriminate Hu.
  - vm_compute in Hedit. discriminate Hedit.
Qed.

(** C3, amended. When a requester who is not an administrator names an
    existing record that the requester does not own, [edit] and [delete]
    never go through and the state is what it was: a signed-in requester is
    answered 403 Forbidden, a requester without a signed-in user is sent to
    sign-in by [login_required]. *)
Theorem edit_delete_foreign_record_forbidden MyTableForm_clean request req_id st r :
  db_ok (db st) →
  has_superuser (session_user st) = false →
  r ∈ app_mytable (db st) →
  mt_id r = Some req_id →
  (∀ u, session_user st = Authenticated u → mt_user r ≠ Some (user_pk u)) →
  match session_user st with
  | Authenticated _ =>
      views.edit MyTableForm_clean request req_id st =
        (Return (HttpResponseForbidden "You don't have permission to edit this record."),
         st) ∧
      views.delete request req_id st =
        (Return (HttpResponseForbidden "You don't have permission to delete this record."),
         st)
  | AnonymousUser =>
      views.edit MyTableForm_clean request req_id st = (Return (Redirect "signin"), st) ∧
      views.delete request req_id st = (Return (Redirect "signin"), st)
  end.
Proof.
  intros [Hkeys Howners] Hs Hr Hk Hne.
  destruct (session_user st) as [|u] eqn:Hu.
  { unfold views.edit, views.delete. by rewrite !login_required_redirects. }
  specialize (Hne u eq_refl). simpl in Hs.
  pose proof (objects_get_found st req_id r Hkeys Hr Hk) as Hget.
  destruct (related_user_found st r Howners Hr) as (owner & Hrel & _ & Hown).
  assert (user_eq owner (session_user st) || has_superuser (session_user st) = false) as Hdeny.
  { rewrite Hu. simpl. rewrite Hs, orb_false_r.
    apply bool_decide_eq_false. intros Heq. apply Hne. by rewrite Hown, Heq. }
  unfold views.edit, views.delete. rewrite !(login_required_passes _ _ _ u Hu).
  unfold views.edit_view, views.delete_view.
  run. rewrite Hget, Hrel, Hdeny. simpl. done.
Qed.

Lemma edit_delete_foreign_record_forbidden_witness :
  let st := fixtures.session (Authenticated fixtures.bob) in
  let request := fixtures.post_ [("client_name", "mine now")] in
  views.edit fixtures.plain_form request 1 st =
    (Return (HttpResponseForbidden "You don't have permission to edit this record."), st) ∧
  views.delete request 1 st =
    (Return (HttpResponseForbidden "You don't have permission to delete this record."), st).
Proof.
  apply (edit_delete_foreign_record_forbidden fixtures.plain_form
           (fixtures.post_ [("client_name", "mine now")]) 1
           (fixtures.session (Authenticated fixtures.bob))
           (fixtures.contract 1 1 "acme")).
  - exact fixtures_store_ok.
  - reflexivity.
  - vm_compute. left.
  - reflexivity.
  - intros u [= <-]. vm_compute. discriminate.
Defined.

(** ** C8: a record identifier that is not in the store *)

(** C8, as stated, fails: a request without a signed-in user is answered by
    [login_required] with the redirect to sign-in, not with a server error. *)
Lemma edit_missing_id_anonymous_redirect :
  ¬ (∀ MyTableForm_clean request req_id st,
       (∀ r, r ∈ app_mytable (db st) → mt_id r ≠ Some req_id) →
       (∃ body, views.edit MyTableForm_clean request req_id st =
                  (Return (HttpResponseServerError body), st)) ∧
       (∃ body, views.delete request req_id st =
                  (Return (HttpResponseServerError body), st))).
Proof.
  intros H.
  destruct (H fixtures.plain_form (fixtures.get_ []) 7 (fixtures.session AnonymousUser))
    as [[body Hedit] _].
  - intros r Hr. vm_compute in Hr.
    repeat (apply elem_of_cons in Hr as [->|Hr]; [discriminate|]).
    by apply elem_of_nil in Hr.
  - vm_compute in Hedit. discriminate Hedit.
Qed.

(** C8, amended. When a request names a record identifier that no stored
    record has, [edit] and [delete] of a signed-in requester answer the
    server error "Record not found." and the state is what it was; without a
    signed-in user [login_required] answers with the redirect to sign-in, again
    with the state as it was. *)
Theorem edit_delete_missing_id MyTableForm_clean request req_id st :
  (∀ r, r ∈ app_mytable (db st) → mt_id r ≠ Some req_id) →
  let answer :=
    match session_user st with
    | Authenticated _ => HttpResponseServerError "Record not found."
    | AnonymousUser => Redirect "signin"
    end in
  views.edit MyTableForm_clean request req_id st = (Return answer, st) ∧
  views.delete request req_id st = (Return answer, st).
Proof.
  intros Hno. destruct (session_user st) as [|u] eqn:Hu; simpl.
  - unfold views.edit, views.delete. by rewrite !login_required_redirects.
  - unfold views.edit, views.delete.
    rewrite !(login_required_passes _ _ _ u Hu).
    unfold views.edit_view, views.delete_view. run.
    by rewrite (objects_get_missing st req_id Hno).
Qed.

Lemma edit_delete_missing_id_witness :
  let st := fixtures.session (Authenticated fixtures.alice) in
  let request := fixtures.post_ [("client_name", "x")] in
  views.edit fixtures.plain_form request 7 st =
    (Return (HttpResponseServerError "Record not found."), st) ∧
  views.delete request 7 st =
    (Return (HttpResponseServerError "Record not found."), st).
Proof.
  apply (edit_delete_missing_id fixtures.plain_form
           (fixtures.post_ [("client_name", "x")]) 7
           (fixtures.session (Authenticated fixtures.alice))).
  intros r Hr. vm_compute in Hr.
  repeat (apply elem_of_cons in Hr as [->|Hr]; [discriminate|]).
  by apply elem_of_nil in Hr.
Defined.

(** ** C7: the owner of a record over a run of operations *)



Lemma table_step_keys_ok d d' : keys_ok d → table_step d d' → keys_ok d'.
Proof.
  intros [Hnd Hlt] Hstep. rewrite Forall_forall in Hlt.
  destruct Hstep as [|new Hnew|k r new Hr Hk Hnk Hnu|r]; unfold keys_ok; simpl.
  - by rewrite Forall_forall.
  - split.
    + rewrite fmap_app. simpl. apply NoDup_app. split; [done|]. split.
      * intros i Hi Hin. apply list_elem_of_singleton in Hin as ->.
        apply list_elem_of_fmap in Hi as (x & Hx & Hxl).
        specialize (Hlt x Hxl). unfold key_below in Hlt. rewrite <- Hx, Hnew in Hlt. lia.
      * apply NoDup_singleton.
    + apply Forall_app. split.
      * rewrite Forall_forall. intros x Hx. specialize (Hlt x Hx).
        unfold key_below in *. destruct (mt_id x); [lia|done].
      * apply Forall_singleton. unfold key_below. rewrite Hnew. lia.
  - assert (∀ x, mt_id (if bool_decide (mt_id x = Some k) then new else x) = mt_id x) as Hsame.
    { intros x. case_bool_decide; congruence. }
    split.
    + rewrite <- list_fmap_compose.
      erewrite list_fmap_ext; [exact Hnd|]. intros i x _. apply Hsame.
    + rewrite Forall_fmap, Forall_forall. intros x Hx. specialize (Hlt x Hx).
      unfold key_below, compose in *. by rewrite Hsame.
  - split.
    + eapply sublist_NoDup; [exact Hnd|]. apply fmap_sublist, sublist_filter.
    + rewrite Forall_forall. intros x Hx.
      apply list_elem_of_filter in Hx as [_ Hx]. by apply Hlt.
Qed.


Lemma objects_get_inv k st o st' :
  objects_get k st = (o, st') →
  st' = st ∧ ∀ r, o = Return r → r ∈ app_mytable (db st) ∧ mt_id r = Some k.
Proof.
  unfold objects_get. run.
  destruct (filter _ (app_mytable (db st))) as [|x [|y l]] eqn:Hf;
    intros [= <- <-]; (split; [reflexivity|]); intros r [= <-].
  assert (x ∈ filter (λ r, mt_id r = Some k) (app_mytable (db st))) as Hx
    by (rewrite Hf; left).
  apply list_elem_of_filter in Hx. tauto.
Qed.

Lemma related_user_state r st : (related_user r st).2 = st.
Proof.
  unfold related_user. destruct (mt_user r); run; [|reflexivity].
  by destruct (filter _ (auth_user (db st))).
Qed.

Lemma details_state FormFilter request st :
  (views.details FormFilter request st).2 = st.
Proof.
  destruct (session_user st) as [|u] eqn:Hu.
  - by rewrite details_anonymous.
  - by rewrite (details_authenticated _ _ _ u).
Qed.

Lemma addnew_step MyTableForm_clean request st :
  table_step (db st) (db (views.addnew MyTableForm_clean request st).2).
Proof.
  destruct st as [d who msgs]. unfold views.addnew, views.login_required, views.addnew_view.
  run. destruct who as [|u]; simpl; [constructor|].
  destruct (method request =? "POST"); simpl; [|constructor].
  destruct (MyTableForm_clean (POST request)) as [cleaned|]; simpl; [|constructor].
  unfold save. run. rewrite construct_instance_id. simpl.
  by apply step_insert.
Qed.

Lemma edit_step MyTableForm_clean request req_id st :
  form_excludes_owner MyTableForm_clean →
  table_step (db st) (db (views.edit MyTableForm_clean request req_id st).2).
Proof.
  intros Hform. unfold views.edit.
  destruct (session_user st) as [|u] eqn:Hu.
  { rewrite login_required_redirects by done. constructor. }
  rewrite (login_required_passes _ _ _ u Hu). unfold views.edit_view. run.
  destruct (objects_get req_id st) as [[r|e] st1] eqn:Hget;
    apply objects_get_inv in Hget as [-> Hr]; [|destruct e; constructor].
  destruct (Hr r eq_refl) as [Hin Hid].
  pose proof (related_user_state r st) as Hrel.
  destruct (related_user r st) as [[owner|e] st1]; simpl in Hrel; subst st1;
    [|destruct e; constructor].
  destruct (negb _); simpl; [constructor|].
  destruct (method request =? "POST"); simpl; [|constructor].
  destruct (MyTableForm_clean (POST request)) as [cleaned|] eqn:Hc; simpl; [|constructor].
  unfold save. rewrite construct_instance_id, construct_instance_user by eauto.
  destruct (mt_user r) as [owner_key|] eqn:Hown; run; [|constructor].
  rewrite Hid. rewrite bool_decide_eq_true_2; simpl.
  - apply (step_update _ req_id r); [done|done|..].
    + by rewrite construct_instance_id.
    + rewrite construct_instance_user by eauto. done.
  - apply Exists_exists. by exists r.
Qed.

Lemma delete_step request req_id st :
  table_step (db st) (db (views.delete request req_id st).2).
Proof.
  unfold views.delete.
  destruct (session_user st) as [|u] eqn:Hu.
  { rewrite login_required_redirects by done. constructor. }
  rewrite (login_required_passes _ _ _ u Hu). unfold views.delete_view. run.
  destruct (objects_get req_id st) as [[r|e] st1] eqn:Hget;
    apply objects_get_inv in Hget as [-> Hr]; [|destruct e; constructor].
  pose proof (related_user_state r st) as Hrel.
  destruct (related_user r st) as [[owner|e] st1]; simpl in Hrel; subst st1;
    [|destruct e; constructor].
  destruct (negb _); simpl; [constructor|].
  unfold delete_instance. run. apply step_delete.
Qed.

Lemma export_excel_state now request st :
  (views.export_excel now request st).2 = st.
Proof.
  unfold views.export_excel, values_list. run.
  destruct (has_superuser (session_user st)), (session_user st); simpl;
    repeat match goal with
           | |- context [match ?x with _ => _ end] =>
               first [ is_var x
                     | lazymatch type of x with outcome _ => idtac end ];
               destruct x; simpl
           end; reflexivity.
Qed.

Section runs.
Variable MyTableForm_clean : QueryDict → option (list (string * value)).
Variable FormFilter : QueryDict → MyTable → bool.
Hypothesis Hform : form_excludes_owner MyTableForm_clean.

Lemma perform_step d step :
  table_step d (perform MyTableForm_clean FormFilter d step).
Proof.
  destruct step as [who [request|request|request k|request k|now request]];
    unfold perform; simpl.
  - rewrite details_state. constructor.
  - apply (addnew_step _ _ (mkState d who [])).
  - by apply (edit_step _ _ _ (mkState d who [])).
  - apply (delete_step _ _ (mkState d who [])).
  - rewrite export_excel_state. constructor.
Qed.


End runs.



Lemma plain_form_excludes_owner : form_excludes_owner fixtures.plain_form.
Proof.
  intros data cleaned. unfold fixtures.plain_form.
  destruct (qd_get "client_name" data); simpl; [|discriminate].
  intros [= <-]. destruct (qd_get "status" data); simpl; intros Hin;
    repeat (apply elem_of_cons in Hin as [Hin|Hin]; [discriminate|]);
    by apply elem_of_nil in Hin.
Defined.


(** The hypothesis on the form is needed: a form that binds the model's
    [user] lets a successful edit hand the record to another account. *)
Example edit_with_owner_binding_form_reassigns :
  let request := fixtures.post_ [("client_name", "acme"); ("owner", "2")] in
  let st := (views.edit fixtures.owner_binding_form request 1
               (fixtures.session (Authenticated fixtures.alice))).2 in
  mt_user <$> filter (λ r, mt_id r = Some 1) (app_mytable (db st)) = [Some 2].
Proof. vm_compute. reflexivity. Qed.

(** ** Writing a worksheet *)

Lemma write_Return r c label bold (sh : Sheet) :
  (N.of_nat r ≤ xlwt.max_rowx)%N →
  (N.of_nat c ≤ xlwt.max_colx)%N →
  default ∅ (sh !! r) !! c = None →
  xlwt.write r c label bold sh =
    Return (<[r := <[c := (label, bold)]> (default ∅ (sh !! r))]> sh).
Proof.
  intros Hr Hc Hfree. unfold xlwt.write.
  rewrite !bool_decide_eq_false_2 by lia. by rewrite Hfree.
Qed.

Lemma write_Return_inv r c label bold (sh sh' : Sheet) :
  xlwt.write r c label bold sh = Return sh' → (N.of_nat r ≤ xlwt.max_rowx)%N.
Proof.
  unfold xlwt.write. case_bool_decide; [discriminate|]. intros _. lia.
Qed.

Section write_cells.
Context {A : Type} (f : A → string) (bold : bool) (rownum : nat).
Hypothesis Hrow : (N.of_nat rownum ≤ xlwt.max_rowx)%N.

Lemma write_cells_from (rest written : list A) (base : Sheet) :
  (length (written ++ rest) ≤ 256)%nat →
  for_each (seq (length written) (length rest))
    (write_cell f rownum (written ++ rest) bold)
    (<[rownum := row_of_cells f bold written]> base) =
  Return (<[rownum := row_of_cells f bold (written ++ rest)]> base).
Proof.
  revert written. induction rest as [|x rest IH]; intros written Hlen.
  - by rewrite app_nil_r.
  - simpl. unfold write_cell at 1.
    rewrite list_lookup_middle by done.
    rewrite length_app in Hlen. simpl in Hlen.
    rewrite write_Return.
    + rewrite lookup_insert_eq. simpl. rewrite insert_insert_eq.
      assert (row_of_cells f bold (written ++ [x])%list =
              <[List.length written:=(f x, bold)]> (row_of_cells f bold written)) as <-.
      { unfold row_of_cells. rewrite fmap_app. simpl.
        rewrite map_seq_snoc, length_fmap. done. }
      specialize (IH (written ++ [x])%list).
      rewrite <- !(assoc_L (++)%list), !length_app in IH. simpl in IH.
      rewrite Nat.add_1_r in IH. apply IH. lia.
    + exact Hrow.
    + unfold xlwt.max_colx. lia.
    + rewrite lookup_insert_eq. simpl. unfold row_of_cells.
      apply lookup_map_seq_None. rewrite length_fmap. lia.
Qed.

Lemma write_cells_Return (row : list A) (base : Sheet) :
  row ≠ [] → (length row ≤ 256)%nat → base !! rownum = None →
  write_cells f rownum row bold base =
    Return (<[rownum := row_of_cells f bold row]> base).
Proof.
  intros Hne Hlen Hfree. destruct row as [|x rest]; [done|].
  unfold write_cells. simpl. unfold write_cell at 1. simpl.
  rewrite write_Return; [|exact Hrow|unfold xlwt.max_colx; lia|by rewrite Hfree].
  rewrite Hfree. simpl.
  exact (write_cells_from rest [x] base Hlen).
Qed.
End write_cells.

Lemma write_cells_Return_inv {A} (f : A → string) bold rownum (row : list A) (sh sh' : Sheet) :
  row ≠ [] →
  write_cells f rownum row bold sh = Return sh' →
  (N.of_nat rownum ≤ xlwt.max_rowx)%N.
Proof.
  intros Hne. destruct row as [|x rest]; [done|].
  unfold write_cells. simpl. unfold write_cell at 1. simpl.
  destruct (xlwt.write rownum 0 (f x) bold sh) as [sh1|e] eqn:Hw; [|discriminate].
  intros _. by eapply write_Return_inv.
Qed.

Lemma write_rows_Return (rows : list (list value)) (above : list (gmap nat (string * bool)))
    (rownum : nat) :
  length above = S rownum →
  Forall row_fits rows →
  (N.of_nat (rownum + length rows) ≤ xlwt.max_rowx)%N →
  write_rows rows rownum (map_seq 0 above) =
    Return (rownum + length rows, map_seq 0 (above ++ (row_of_cells str false <$> rows))).
Proof.
  unfold write_rows. revert above rownum.
  induction rows as [|row rows IH]; intros above rownum Habove Hfit Hmax.
  - simpl. by rewrite Nat.add_0_r, app_nil_r.
  - apply Forall_cons in Hfit as [[Hne Hlen] Hfit]. simpl in *.
    rewrite write_cells_Return; [|lia|done|done|].
    + simpl.
      assert (<[rownum + 1 := row_of_cells str false row]> (map_seq 0 above : Sheet) =
              map_seq 0 (above ++ [row_of_cells str false row])%list) as ->.
      { rewrite map_seq_snoc. simpl. f_equal. lia. }
      rewrite (IH (above ++ [row_of_cells str false row])%list (rownum + 1)).
      * rewrite <- (assoc_L (++)%list). simpl. do 2 f_equal. lia.
      * rewrite length_app. simpl. lia.
      * done.
      * lia.
    + apply lookup_map_seq_None. lia.
Qed.

Lemma write_rows_Return_inv (rows : list (list value)) rownum (sh : Sheet) result :
  Forall row_fits rows → rows ≠ [] →
  write_rows rows rownum sh = Return result →
  (N.of_nat (rownum + length rows) ≤ xlwt.max_rowx)%N.
Proof.
  unfold write_rows. revert rownum sh.
  induction rows as [|row rows IH]; intros rownum sh Hfit Hne; [done|].
  apply Forall_cons in Hfit as [[Hrow _] Hfit]. simpl.
  destruct (write_cells str (rownum + 1) row false sh) as [sh1|e] eqn:Hw;
    simpl; [|discriminate].
  apply write_cells_Return_inv in Hw; [|done].
  intros Hrest. destruct rows as [|row' rows'].
  - simpl. lia.
  - apply IH in Hrest; [|done|done]. simpl in *. lia.
Qed.

(** ** The rows of the export query *)

Lemma mapM_Return {A B} (f : A → outcome B) (g : A → B) (l : list A) :
  (∀ x, x ∈ l → f x = Return (g x)) → mapM f l = Return (g <$> l).
Proof.
  induction l as [|x l IH]; intros Hf; [reflexivity|].
  simpl. rewrite (Hf x) by left. simpl.
  rewrite IH by (intros y Hy; apply Hf; by right). reflexivity.
Qed.

Lemma select_rows_user d qs :
  select_rows views.user_names d qs = Return (own_columns <$> qs).
Proof.
  unfold select_rows, joined.
  rewrite bool_decide_eq_false_2 by (by apply (bool_decide_unpack _)).
  rewrite (mapM_Return _ (λ row, own_columns row.1)) by (intros; reflexivity).
  by rewrite <- list_fmap_compose.
Qed.

Lemma joined_admin d qs :
  owners_ok d → qs ⊆ app_mytable d →
  joined views.admin_names d qs =
    (λ r, (r, head (filter (λ u, mt_user r = Some (user_pk u)) (auth_user d)))) <$> qs.
Proof.
  intros [Hfk Hnd] Hsub. unfold joined.
  rewrite bool_decide_eq_true_2 by (by apply (bool_decide_unpack _)).
  rewrite Forall_forall in Hfk.
  induction qs as [|r qs IH]; [reflexivity|].
  rewrite bind_cons, fmap_cons, IH by (intros x Hx; apply Hsub; by right).
  destruct (proj1 (Exists_exists _ _) (Hfk r (Hsub r ltac:(left)))) as (u & Hu & Hru).
  rewrite (filter_singleton user_pk _ _ u); [reflexivity|done..|].
  intros y Hy. rewrite Hy in Hru. by injection Hru.
Qed.

Lemma select_rows_admin d qs :
  owners_ok d → qs ⊆ app_mytable d →
  select_rows views.admin_names d qs =
    Return ((λ r, own_columns r ++ [VStr (owner_name d r)])%list <$> qs).
Proof.
  intros Hok Hsub. pose proof Hok as [Hfk Hnd]. rewrite Forall_forall in Hfk.
  unfold select_rows. rewrite joined_admin by done.
  rewrite (mapM_Return _
             (λ row, own_columns row.1 ++ [VStr (from_option username "" row.2)])%list).
  - by rewrite <- list_fmap_compose.
  - intros [r o] Hin. apply list_elem_of_fmap in Hin as (r0 & [= -> ->] & Hr0).
    destruct (proj1 (Exists_exists _ _) (Hfk r0 (Hsub r0 Hr0))) as (u & Hu & Hru).
    rewrite (filter_singleton user_pk _ _ u); [reflexivity|done..|].
    intros y Hy. rewrite Hy in Hru. by injection Hru.
Qed.

Lemma visible_stored u d : visible u d ⊆ app_mytable d.
Proof.
  unfold visible. destruct (is_superuser u); [done|].
  intros r Hr. by apply list_elem_of_filter in Hr as [_ Hr].
Qed.

Lemma export_rows_fit u d : Forall row_fits (export_rows u d).
Proof.
  unfold export_rows, export_row. rewrite Forall_fmap. apply Forall_true. intros r.
  unfold row_fits, compose. destruct (is_superuser u); simpl; split; (done || lia).
Qed.

(** ** Saving the workbook *)

Lemma map_Forall_seq {A} (P : A → Prop) (l : list A) :
  map_Forall (λ _ x, P x) (map_seq 0 l : gmap nat A) ↔ Forall P l.
Proof.
  rewrite Forall_lookup. unfold map_Forall.
  split; intros H i x Hx; apply (H i x); by rewrite ?lookup_map_seq_0 in *.
Qed.

Lemma sheet_labels_fit columns rows :
  map_Forall (λ _ row, map_Forall (λ _ cell, xlwt.label_fits cell) row)
    (sheet_of columns rows) ↔
  labels_fit (λ s, s) columns ∧ Forall (labels_fit str) rows.
Proof.
  unfold sheet_of. rewrite (map_Forall_seq (map_Forall (λ _ cell, xlwt.label_fits cell))).
  rewrite Forall_cons, Forall_fmap. unfold row_of_cells, labels_fit.
  rewrite (map_Forall_seq xlwt.label_fits), Forall_fmap.
  apply and_iff_compat_l. apply Forall_proper; [|done]. intros row. unfold compose.
  by rewrite (map_Forall_seq xlwt.label_fits), Forall_fmap.
Qed.

Lemma columns_fit u : labels_fit (λ s, s) (export_columns u).
Proof.
  unfold export_columns. destruct (is_superuser u);
    apply (bool_decide_unpack _); vm_compute; exact I.
Qed.

Lemma write_rows_cases (rows : list (list value)) (header : gmap nat (string * bool)) :
  Forall row_fits rows →
  ((N.of_nat (length rows) ≤ xlwt.max_rowx)%N ∧
   write_rows rows 0 (map_seq 0 [header]) =
     Return (length rows, map_seq 0 (header :: (row_of_cells str false <$> rows)))) ∨
  (¬ (N.of_nat (length rows) ≤ xlwt.max_rowx)%N ∧
   ∃ e, write_rows rows 0 (map_seq 0 [header]) = Raise e).
Proof.
  intros Hfit. destruct (decide (N.of_nat (length rows) ≤ xlwt.max_rowx)%N) as [Hle|Hgt].
  - left. split; [done|]. by rewrite (write_rows_Return rows [header] 0).
  - right. split; [done|].
    destruct (write_rows rows 0 (map_seq 0 [header])) as [result|e] eqn:Hw; [|by exists e].
    exfalso. apply Hgt. apply write_rows_Return_inv in Hw; [done|done|].
    intros ->. apply Hgt. unfold xlwt.max_rowx. simpl. lia.
Qed.

Lemma save_cases columns rows :
  labels_fit (λ s, s) columns →
  (Forall (labels_fit str) rows ∧
   xlwt.save (sheet_of columns rows) = Return (sheet_of columns rows)) ∨
  (¬ Forall (labels_fit str) rows ∧
   xlwt.save (sheet_of columns rows) =
     Raise (Exception "String longer than 32767 characters")).
Proof.
  intros Hcols. unfold xlwt.save. case_bool_decide as Hfit.
  - left. apply sheet_labels_fit in Hfit. tauto.
  - right. split; [|done]. intros Hrows. apply Hfit, sheet_labels_fit. done.
Qed.

(** ** C4, C5, C9: the export *)

Lemma export_excel_anonymous now request st :
  session_user st = AnonymousUser →
  views.export_excel now request st =
    (Raise (TypeError "Field 'id' expected a number but got AnonymousUser."), st).
Proof.
  destruct st as [d who msgs]; simpl; intros ->.
  unfold views.export_excel. run.
  rewrite (write_cells_Return _ _ 0);
    [reflexivity|unfold xlwt.max_rowx; lia|done|simpl; lia|apply lookup_empty].
Qed.

Lemma export_excel_cases now request st u :
  owners_ok (db st) →
  session_user st = Authenticated u →
  (table_fits (export_rows u (db st)) ∧
   views.export_excel now request st = (Return (export_response now u (db st)), st)) ∨
  (¬ table_fits (export_rows u (db st)) ∧
   ((N.of_nat (length (export_rows u (db st))) ≤ xlwt.max_rowx)%N →
    views.export_excel now request st =
      (Raise (Exception "String longer than 32767 characters"), st)) ∧
   ∃ e, views.export_excel now request st = (Raise e, st)).
Proof.
  destruct st as [d who msgs]; simpl; intros Hok ->.
  pose proof (export_rows_fit u d) as Hfit.
  pose proof (columns_fit u) as Hcols.
  unfold views.export_excel, values_list, export_response, table_fits in *.
  unfold export_rows, export_row, export_columns, visible, select_related in *.
  run. destruct (is_superuser u).
  - rewrite (write_cells_Return _ _ 0);
      [|unfold xlwt.max_rowx; lia|done|simpl; lia|apply lookup_empty].
    rewrite select_rows_admin by done. simpl.
    change (<[0:=?h]> ∅) with (map_seq 0 [h] : Sheet).
    match goal with
    | |- context [write_rows ?rows 0 _] =>
        destruct (write_rows_cases rows (row_of_cells (λ s, s) true views.admin_columns) Hfit)
          as [[Hle ->]|[Hgt [e ->]]]
    end; cbv beta iota;
      [|right; split; [intros [? _]; by apply Hgt|split; [done|by exists e]]].
    match goal with
    | |- context [xlwt.save (map_seq 0 (_ :: (row_of_cells str false <$> ?rows)))] =>
        destruct (save_cases views.admin_columns rows Hcols) as [[Hl Hs]|[Hl Hs]]
    end; unfold sheet_of in Hs; rewrite Hs.
    + left. by split.
    + right. split; [intros [_ ?]; by apply Hl|split; [done|by eexists]].
  - rewrite (write_cells_Return _ _ 0);
      [|unfold xlwt.max_rowx; lia|done|simpl; lia|apply lookup_empty].
    rewrite select_rows_user. simpl.
    change (<[0:=?h]> ∅) with (map_seq 0 [h] : Sheet).
    match goal with
    | |- context [write_rows ?rows 0 _] =>
        destruct (write_rows_cases rows (row_of_cells (λ s, s) true views.user_columns) Hfit)
          as [[Hle ->]|[Hgt [e ->]]]
    end; cbv beta iota;
      [|right; split; [intros [? _]; by apply Hgt|split; [done|by exists e]]].
    match goal with
    | |- context [xlwt.save (map_seq 0 (_ :: (row_of_cells str false <$> ?rows)))] =>
        destruct (save_cases views.user_columns rows Hcols) as [[Hl Hs]|[Hl Hs]]
    end; unfold sheet_of in Hs; rewrite Hs.
    + left. by split.
    + right. split; [intros [_ ?]; by apply Hl|split; [done|by eexists]].
Qed.

(** C4. The export serializes exactly the record set the access-scoping rule
    makes visible to the requester, the set [details] lists when no filter
    narrows it: for a signed-in requester whose table fits the .xls format
    the response is the sheet of that table, every response the view returns
    is that sheet, and a request without a signed-in user gets no file. *)
Theorem export_serializes_visible_records now request st :
  owners_ok (db st) →
  match session_user st with
  | Authenticated u =>
      record_set (views.details (λ _ _, true) request st).1 = Some (visible u (db st)) ∧
      (table_fits (export_row u (db st) <$> visible u (db st)) →
       views.export_excel now request st =
         (Return (ExcelResponse "application/ms-excel"
                    ("attachment; filename=Data_" ++ now ++ ".xls") "Data"
                    (sheet_of (export_columns u)
                       (export_row u (db st) <$> visible u (db st)))), st)) ∧
      (∀ response,
         (views.export_excel now request st).1 = Return response →
         response = ExcelResponse "application/ms-excel"
                      ("attachment; filename=Data_" ++ now ++ ".xls") "Data"
                      (sheet_of (export_columns u)
                         (export_row u (db st) <$> visible u (db st))))
  | AnonymousUser =>
      ∃ e, views.export_excel now request st = (Raise e, st)
  end.
Proof.
  intros Hok. destruct (session_user st) as [|u] eqn:Hu.
  - eexists. by apply export_excel_anonymous.
  - split; [|split].
    + rewrite (details_authenticated _ _ _ u Hu). simpl. f_equal.
      induction (visible u (db st)) as [|r l IH]; [reflexivity|].
      by rewrite filter_cons_True, IH.
    + intros Hfit.
      destruct (export_excel_cases now request st u Hok Hu) as [[_ H]|[Hno _]]; [exact H|].
      by destruct Hno.
    + intros response Hret.
      destruct (export_excel_cases now request st u Hok Hu) as [[_ H]|[_ [_ [e H]]]];
        rewrite H in Hret; simpl in Hret; [|discriminate].
      by injection Hret as <-.
Qed.

Lemma export_serializes_visible_records_witness :
  let st := fixtures.session (Authenticated fixtures.alice) in
  views.export_excel "2024-01-03 10:00:00" (fixtures.get_ []) st =
    (Return (ExcelResponse "application/ms-excel"
               "attachment; filename=Data_2024-01-03 10:00:00.xls" "Data"
               (sheet_of views.user_columns
                  [own_columns (fixtures.contract 1 1 "acme");
                   own_columns (fixtures.contract 3 1 "globex")])), st).
Proof.
  refine (proj1 (proj2 (export_serializes_visible_records "2024-01-03 10:00:00"
                          (fixtures.get_ [])
                          (fixtures.session (Authenticated fixtures.alice))
                          (proj2 fixtures_store_ok))) _).
  apply (bool_decide_unpack _). vm_compute. exact I.
Defined.

Lemma map_size_seq {A} start (l : list A) : size (map_seq start l : gmap nat A) = length l.
Proof.
  revert start. induction l as [|x l IH]; intros start; simpl.
  - apply map_size_empty.
  - rewrite map_size_insert_None by apply map_seq_cons_disjoint. by rewrite IH.
Qed.

Lemma export_row_length u d r :
  length (export_row u d r) = if is_superuser u then 12 else 11.
Proof. unfold export_row. by destruct (is_superuser u). Qed.

Lemma export_columns_length u :
  length (export_columns u) = if is_superuser u then 12 else 11.
Proof. unfold export_columns. by destruct (is_superuser u). Qed.

(** C5. Whenever the export hands out a file, its sheet has the header row
    and one row per record visible to the requester, and each of its rows
    has 12 cells for an administrator and 11 otherwise; and it does hand out
    a file to every signed-in requester whose table fits the format. *)
Theorem export_row_and_column_counts now request st :
  owners_ok (db st) →
  (∀ u, session_user st = Authenticated u →
        table_fits (export_rows u (db st)) →
        ∃ content_type disposition name sheet,
          (views.export_excel now request st).1 =
            Return (ExcelResponse content_type disposition name sheet)) ∧
  (∀ content_type disposition name (sheet : Sheet),
     (views.export_excel now request st).1 =
       Return (ExcelResponse content_type disposition name sheet) →
     ∃ u, session_user st = Authenticated u ∧
          size sheet = S (length (visible u (db st))) ∧
          ∀ i row, sheet !! i = Some row →
                   size row = if is_superuser u then 12 else 11).
Proof.
  intros Hok. split.
  - intros u Hu Hfit.
    destruct (export_excel_cases now request st u Hok Hu) as [[_ H]|[Hno _]]; [|done].
    rewrite H. unfold export_response. by do 4 eexists.
  - intros content_type disposition name sheet Hret.
    destruct (session_user st) as [|u] eqn:Hu.
    { rewrite export_excel_anonymous in Hret by done. discriminate. }
    exists u. split; [done|].
    destruct (export_excel_cases now request st u Hok Hu) as [[_ H]|[_ [_ [e H]]]];
      rewrite H in Hret; simpl in Hret; [|discriminate].
    unfold export_response in Hret. injection Hret as _ _ _ <-.
    unfold sheet_of, export_rows. split.
    + rewrite map_size_seq. simpl. by rewrite !length_fmap.
    + intros i row Hrow. rewrite lookup_map_seq_0 in Hrow.
      destruct i as [|i]; simpl in Hrow.
      * injection Hrow as <-. unfold row_of_cells.
        by rewrite map_size_seq, length_fmap, export_columns_length.
      * rewrite <- list_fmap_compose in Hrow.
        apply list_lookup_fmap_Some in Hrow as (r & -> & _).
        unfold compose, row_of_cells.
        by rewrite map_size_seq, length_fmap, export_row_length.
Qed.

Lemma export_row_and_column_counts_witness :
  ∃ sheet : Sheet,
    (views.export_excel "2024-01-03" (fixtures.get_ [])
       (fixtures.session (Authenticated fixtures.root))).1 =
      Return (ExcelResponse "application/ms-excel"
                "attachment; filename=Data_2024-01-03.xls" "Data" sheet) ∧
    size sheet = 4 ∧
    ∀ i row, sheet !! i = Some row → size row = 12.
Proof.
  pose proof (export_row_and_column_counts "2024-01-03" (fixtures.get_ [])
                (fixtures.session (Authenticated fixtures.root))
                (proj2 fixtures_store_ok)) as [Htotal Hcounts].
  destruct (Htotal fixtures.root eq_refl) as (ct & disp & name & sheet & Hret).
  { apply (bool_decide_unpack _). vm_compute. exact I. }
  pose proof Hret as Hvalue. vm_compute in Hvalue.
  injection Hvalue as Hct Hdisp Hname _.
  exists sheet. rewrite Hret, Hct, Hdisp, Hname. split; [reflexivity|].
  destruct (Hcounts ct disp name sheet Hret) as (u & Hu & Hsize & Hrows).
  injection Hu as <-. split; [exact Hsize|exact Hrows].
Defined.

Lemma length_iter_String c (n : nat) :
  String.length (Nat.iter n (String c) "") = n.
Proof. induction n as [|n IH]; simpl; [reflexivity|by rewrite IH]. Qed.

(** C9. A stored comment of 32768 characters makes [Workbook.save] raise;
    [export_excel] has no handler, so the exception leaves the view: the
    outcome is the raised exception, not a returned server-error response
    (the responses [details], [addnew], [edit] and [delete] build in their
    [except] clauses). *)
Theorem export_serialization_error_uncaught :
  let long_comment := VStr (N.iter 32768 (String (Ascii.ascii_of_nat 120)) "") in
  let record := mkMyTable (Some 1) (Some 1) (VStr "acme") (VStr "2024-01-01")
                  (VStr "2024-01-02") (VStr "555-0100") (VStr "Vee") (VStr "Vee Ltd")
                  (VStr "10") (VStr "USD") (VStr "fixed") (VStr "open") long_comment in
  let st := mkState (mkDatabase [fixtures.alice] [record] 2)
              (Authenticated fixtures.alice) [] in
  views.export_excel "2024-01-03" (fixtures.get_ []) st =
    (Raise (Exception "String longer than 32767 characters"), st).
Proof.
  intros long_comment record st.
  assert (owners_ok (db st)) as Hok
    by (apply (bool_decide_unpack _); vm_compute; exact I).
  destruct (export_excel_cases "2024-01-03" (fixtures.get_ []) st fixtures.alice
              Hok eq_refl) as [[[_ Hfit] _]|[_ [Hraise _]]].
  - exfalso. unfold export_rows, visible in Hfit. simpl in Hfit.
    apply Forall_cons in Hfit as [Hfit _]. unfold labels_fit in Hfit.
    rewrite Forall_lookup in Hfit. specialize (Hfit 10%nat long_comment eq_refl).
    assert (String.length (str long_comment) = N.to_nat 32768) as Hlen.
    { unfold long_comment, str. rewrite N2Nat.inj_iter. apply length_iter_String. }
    cbv beta in Hfit. rewrite Hlen, N2Nat.id in Hfit.
    unfold xlwt.max_label in Hfit. lia.
  - apply Hraise. unfold export_rows, visible. simpl. unfold xlwt.max_rowx. lia.
Qed.

(** No request makes [export_excel] return a server-error response. *)
Lemma export_excel_never_server_error now request st body :
  (views.export_excel now request st).1 ≠ Return (HttpResponseServerError body).
Proof.
  unfold views.export_excel, values_list. run.
  destruct (has_superuser (session_user st)), (session_user st); simpl;
    repeat match goal with
           | |- context [match ?x with _ => _ end] =>
               first [ is_var x
                     | lazymatch type of x with outcome _ => idtac end ];
               destruct x; simpl
           end; discriminate.
Qed.

(** * Further properties of the views *)

#[local] Arguments qd_get : simpl never.

(** ** Signing in, up and out *)

(** X1. From a session without a user, a POST to [signin] with a form
    that validates and credentials the backend accepts redirects to
    [details] and puts the authenticated account into the session, with no
    message queued and no record changed; a [signout] after it leaves the
    session without a user again, messages and records still as they were. *)
Theorem signin_success_then_signout LoginForm_valid authenticate request request' st user :
  session_user st = AnonymousUser →
  method request = "POST" →
  LoginForm_valid (POST request) = true →
  authenticate (auth_user (db st)) (qd_get "username" (POST request))
    (qd_get "password" (POST request)) = Some user →
  let st1 := (views.signin LoginForm_valid authenticate request st).2 in
  let st2 := (views.signout request' st1).2 in
  (views.signin LoginForm_valid authenticate request st).1 = Return (Redirect "details") ∧
  session_user st1 = Authenticated user ∧
  messages st1 = messages st ∧
  app_mytable (db st1) = app_mytable (db st) ∧
  mytable_seq (db st1) = mytable_seq (db st) ∧
  (views.signout request' st1).1 = Return (Redirect "signin") ∧
  session_user st2 = AnonymousUser ∧
  messages st2 = messages st ∧
  app_mytable (db st2) = app_mytable (db st) ∧
  mytable_seq (db st2) = mytable_seq (db st).
Proof.
  destruct st as [d who msgs]; simpl; intros -> Hm Hv Ha.
  unfold views.signin, views.signout. run. rewrite Hm. simpl. rewrite Hv. simpl.
  rewrite Ha. by simpl.
Qed.

Lemma signin_success_then_signout_witness :
  let st := fixtures.session AnonymousUser in
  let request := fixtures.post_ [("username", "bob"); ("password", "pw")] in
  let backend := λ (users : list User) (name _ : option string),
                   head (filter (λ u, Some (username u) = name) users) in
  let st1 := (views.signin (λ _, true) backend request st).2 in
  let st2 := (views.signout (fixtures.get_ []) st1).2 in
  (views.signin (λ _, true) backend request st).1 = Return (Redirect "details") ∧
  session_user st1 = Authenticated fixtures.bob ∧
  messages st1 = [] ∧
  app_mytable (db st1) = app_mytable fixtures.store ∧
  mytable_seq (db st1) = 4 ∧
  (views.signout (fixtures.get_ []) st1).1 = Return (Redirect "signin") ∧
  session_user st2 = AnonymousUser ∧
  messages st2 = [] ∧
  app_mytable (db st2) = app_mytable fixtures.store ∧
  mytable_seq (db st2) = 4.
Proof.
  apply (signin_success_then_signout (λ _, true)
           (λ (users : list User) (name _ : option string),
              head (filter (λ u, Some (username u) = name) users))
           (fixtures.post_ [("username", "bob"); ("password", "pw")])
           (fixtures.get_ []) (fixtures.session AnonymousUser) fixtures.bob);
    reflexivity.
Defined.

(** X2. A sign-in with a valid form but credentials the backend rejects
    renders the sign-in page again with the submitted form, queues the
    message " Username or Password is Incorrect", and leaves the session
    without a user and the database as it was. *)
Theorem signin_wrong_credentials LoginForm_valid authenticate request st :
  session_user st = AnonymousUser →
  method request = "POST" →
  LoginForm_valid (POST request) = true →
  authenticate (auth_user (db st)) (qd_get "username" (POST request))
    (qd_get "password" (POST request)) = None →
  views.signin LoginForm_valid authenticate request st =
    (Return (Render "sign_in.html"
               [("form", CForm (BoundForm (POST request) None));
                ("hide_signin", CBool false)]),
     mkState (db st) AnonymousUser
       (messages st ++ [" Username or Password is Incorrect"])).
Proof.
  destruct st as [d who msgs]; simpl; intros -> Hm Hv Ha.
  unfold views.signin. run. rewrite Hm. simpl. rewrite Hv. simpl. rewrite Ha. by simpl.
Qed.

Lemma signin_wrong_credentials_witness :
  views.signin (λ _, true) (λ _ _ _, None)
    (fixtures.post_ [("username", "bob"); ("password", "guess")])
    (fixtures.session AnonymousUser) =
    (Return (Render "sign_in.html"
               [("form", CForm (BoundForm [("username", "bob"); ("password", "guess")] None));
                ("hide_signin", CBool false)]),
     mkState fixtures.store AnonymousUser [" Username or Password is Incorrect"]).
Proof.
  apply (signin_wrong_credentials (λ _, true) (λ _ _ _, None)
           (fixtures.post_ [("username", "bob"); ("password", "guess")])
           (fixtures.session AnonymousUser)); reflexivity.
Defined.


(** X4. A valid sign-up from a session without a user appends the new
    account to the accounts, leaves every record and the key sequence as
    they were, queues the greeting with the account's name, redirects to
    sign-in, and does not sign the new account in. *)
Theorem signup_creates_account SignUpForm_clean request st account :
  session_user st = AnonymousUser →
  method request = "POST" →
  SignUpForm_clean (POST request) (auth_user (db st)) = Some account →
  views.signup SignUpForm_clean request st =
    (Return (Redirect "signin"),
     mkState (mkDatabase (auth_user (db st) ++ [account]) (app_mytable (db st))
                (mytable_seq (db st)))
       AnonymousUser
       (messages st ++ ["Hi " ++ username account ++
                        ", Account Created Successfully. Use your credentials to login "])).
Proof.
  destruct st as [d who msgs]; simpl; intros -> Hm Hc.
  unfold views.signup. run. rewrite Hm. simpl. rewrite Hc. by simpl.
Qed.

Lemma signup_creates_account_witness :
  let carol := mkUser 4 "carol" false in
  views.signup (λ data users, Some carol)
    (fixtures.post_ [("username", "carol")]) (fixtures.session AnonymousUser) =
    (Return (Redirect "signin"),
     mkState (mkDatabase [fixtures.alice; fixtures.bob; fixtures.root; carol]
                (app_mytable fixtures.store) 4)
       AnonymousUser
       ["Hi carol, Account Created Successfully. Use your credentials to login "]).
Proof.
  apply (signup_creates_account (λ data users, Some (mkUser 4 "carol" false))
           (fixtures.post_ [("username", "carol")]) (fixtures.session AnonymousUser)
           (mkUser 4 "carol" false)); reflexivity.
Defined.

(** X5. Whatever is submitted and whoever asks, [signup] never changes a
    record, the key sequence or the session, keeps every existing account
    in place, and adds at most one account. *)
Theorem signup_effect_bounded SignUpForm_clean request st :
  let st' := (views.signup SignUpForm_clean request st).2 in
  app_mytable (db st') = app_mytable (db st) ∧
  mytable_seq (db st') = mytable_seq (db st) ∧
  session_user st' = session_user st ∧
  (auth_user (db st') = auth_user (db st) ∨
   ∃ account : User, auth_user (db st') = (auth_user (db st) ++ [account])%list).
Proof.
  destruct st as [d who msgs]. unfold views.signup. run.
  destruct who as [|u]; simpl; [|by auto].
  destruct (method request =? "POST"); simpl; [|by auto].
  destruct (SignUpForm_clean (POST request) (auth_user d)) as [account|]; simpl; [|by auto].
  do 3 (split; [done|]). right. by exists account.
Qed.

(** ** The views behind [login_required] *)

(** X6. Without a signed-in user, [details], [addnew], [edit] and [delete]
    all answer with the redirect to sign-in and leave the state untouched,
    whatever method, data or record identifier the request carries. *)
Theorem anonymous_sent_to_signin FormFilter MyTableForm_clean request req_id st :
  session_user st = AnonymousUser →
  views.details FormFilter request st = (Return (Redirect "signin"), st) ∧
  views.addnew MyTableForm_clean request st = (Return (Redirect "signin"), st) ∧
  views.edit MyTableForm_clean request req_id st = (Return (Redirect "signin"), st) ∧
  views.delete request req_id st = (Return (Redirect "signin"), st).
Proof.
  intros Hu. unfold views.details, views.addnew, views.edit, views.delete.
  by rewrite !login_required_redirects.
Qed.

Lemma anonymous_sent_to_signin_witness :
  let st := fixtures.session AnonymousUser in
  let request := fixtures.post_ [("client_name", "intruder")] in
  views.details field_filter request st = (Return (Redirect "signin"), st) ∧
  views.addnew fixtures.plain_form request st = (Return (Redirect "signin"), st) ∧
  views.edit fixtures.plain_form request 1 st = (Return (Redirect "signin"), st) ∧
  views.delete request 1 st = (Return (Redirect "signin"), st).
Proof.
  apply (anonymous_sent_to_signin field_filter fixtures.plain_form
           (fixtures.post_ [("client_name", "intruder")]) 1
           (fixtures.session AnonymousUser)).
  reflexivity.
Defined.

Lemma try_except_responds {A} (body : M A) (handler : exn → M A) st :
  (∀ e st', ∃ a, (handler e st').1 = Return a) →
  ∃ a, (try_except body handler st).1 = Return a.
Proof.
  intros Hh. unfold try_except. destruct (body st) as [[a|e] st']; [by exists a|apply Hh].
Qed.

Lemma login_required_responds (view : HttpRequest → M HttpResponse) request st :
  (∀ st', ∃ response, (view request st').1 = Return response) →
  ∃ response, (views.login_required view request st).1 = Return response.
Proof.
  intros Hv. destruct (session_user st) as [|u] eqn:Hu.
  - rewrite login_required_redirects by done. by eexists.
  - rewrite (login_required_passes _ _ _ u Hu). apply Hv.
Qed.

(** X7. No exception leaves [edit] or [delete]: whatever the request, the
    state and the form, each returns a response; and when, for a signed-in
    requester, the lookup of the record raises (no row or several rows under
    the identifier) or the lookup of its owner raises, that response is a
    server-error response built by the [except] clauses. *)
Theorem edit_delete_contain_exceptions MyTableForm_clean request req_id st :
  (∃ response, (views.edit MyTableForm_clean request req_id st).1 = Return response) ∧
  (∃ response, (views.delete request req_id st).1 = Return response) ∧
  (∀ u, session_user st = Authenticated u →
     ((∃ e, (objects_get req_id st).1 = Raise e) ∨
      (∃ r e, (objects_get req_id st).1 = Return r ∧ (related_user r st).1 = Raise e)) →
     (∃ body, (views.edit MyTableForm_clean request req_id st).1 =
                Return (HttpResponseServerError body)) ∧
     (∃ body, (views.delete request req_id st).1 =
                Return (HttpResponseServerError body))).
Proof.
  split; [|split].
  - apply login_required_responds. intros st'. unfold views.edit_view.
    apply try_except_responds. intros e st''. destruct e; by eexists.
  - apply login_required_responds. intros st'. unfold views.delete_view.
    apply try_except_responds. intros e st''. destruct e; by eexists.
  - intros u Hu Hraise. unfold views.edit, views.delete.
    rewrite !(login_required_passes _ _ _ u Hu).
    unfold views.edit_view, views.delete_view. run.
    destruct (objects_get req_id st) as [[r|e] st1] eqn:Hget;
      apply objects_get_inv in Hget as [-> _]; simpl in *.
    + destruct Hraise as [[e He]|(r' & e & [= <-] & He)]; [discriminate|].
      pose proof (related_user_state r st) as Hrel.
      destruct (related_user r st) as [[owner|e'] st1]; simpl in *; [discriminate|].
      subst st1. destruct e'; split; by eexists.
    + destruct e; split; by eexists.
Qed.

Lemma edit_delete_contain_exceptions_witness :
  let st := fixtures.session (Authenticated fixtures.alice) in
  (∃ body, (views.edit fixtures.plain_form (fixtures.get_ []) 7 st).1 =
             Return (HttpResponseServerError body)) ∧
  (∃ body, (views.delete (fixtures.get_ []) 7 st).1 =
             Return (HttpResponseServerError body)).
Proof.
  apply (proj2 (proj2 (edit_delete_contain_exceptions fixtures.plain_form
                         (fixtures.get_ []) 7
                         (fixtures.session (Authenticated fixtures.alice))))
           fixtures.alice eq_refl).
  left. exists MyTable_DoesNotExist. reflexivity.
Defined.

(** X8. [details] and [export_excel] only read: whoever asks and whatever
    the outcome (a page, a redirect, a workbook or a raised exception), the
    database, the session and the queued messages are what they were. *)
Theorem reads_leave_state FormFilter now request st :
  (views.details FormFilter request st).2 = st ∧
  (views.export_excel now request st).2 = st.
Proof. split; [apply details_state|apply export_excel_state]. Qed.

(** X9. For a signed-in user the record set of [details] holds exactly the
    stored records that pass the filter of the request and that the user
    may read (all of them for an administrator, the user's own otherwise),
    in storage order. *)
Theorem details_record_set_exact FormFilter request st u :
  session_user st = Authenticated u →
  ∃ qs, record_set (views.details FormFilter request st).1 = Some qs ∧
        qs `sublist_of` app_mytable (db st) ∧
        ∀ r, r ∈ qs ↔
             r ∈ app_mytable (db st) ∧
             FormFilter (GET request) r = true ∧
             (is_superuser u = true ∨ mt_user r = Some (user_pk u)).
Proof.
  intros Hu. rewrite (details_authenticated _ _ _ u Hu). simpl.
  eexists; split; [reflexivity|]. unfold visible. split.
  - destruct (is_superuser u); [apply sublist_filter|].
    etrans; apply sublist_filter.
  - intros r. rewrite list_elem_of_filter.
    destruct (is_superuser u).
    + split; [intros [? ?]; auto|intros (? & ? & ?); auto].
    + rewrite list_elem_of_filter.
      split; [intros (? & ? & ?); auto|intros (? & ? & [?|?]); [discriminate|auto]].
Qed.

Lemma details_record_set_exact_witness :
  ∃ qs, record_set (views.details field_filter (fixtures.get_ [("status", "open")])
                      (fixtures.session (Authenticated fixtures.alice))).1 = Some qs ∧
        qs `sublist_of` app_mytable fixtures.store ∧
        ∀ r, r ∈ qs ↔
             r ∈ app_mytable fixtures.store ∧
             field_filter [("status", "open")] r = true ∧
             (false = true ∨ mt_user r = Some 1).
Proof.
  apply (details_record_set_exact field_filter (fixtures.get_ [("status", "open")])
           (fixtures.session (Authenticated fixtures.alice)) fixtures.alice).
  reflexivity.
Defined.

(** ** Deleting and editing a record one may change *)

Lemma related_user_known st r k :
  mt_user r = Some k →
  Exists (λ x, user_pk x = k) (auth_user (db st)) →
  ∃ owner, related_user r st = (Return owner, st) ∧ user_pk owner = k.
Proof.
  intros Hr Hex. apply Exists_exists in Hex as (x & Hx & Hxk).
  unfold related_user. rewrite Hr. run.
  destruct (filter _ (auth_user (db st))) as [|owner rest] eqn:Hf.
  - exfalso. by eapply (filter_nil_not_elem_of _ _ x).
  - assert (owner ∈ filter (λ y, user_pk y = k) (auth_user (db st))) as Ho
      by (rewrite Hf; left).
    apply list_elem_of_filter in Ho as [Hpk _]. by exists owner.
Qed.

Lemma may_change_passes u r owner :
  may_change u r → mt_user r = Some (user_pk owner) →
  negb (user_eq owner (Authenticated u) || is_superuser u) = false.
Proof.
  intros [Hown|Hadm] Hr; simpl.
  - rewrite bool_decide_eq_true_2; [done|]. rewrite Hr in Hown. by injection Hown.
  - by rewrite Hadm, orb_true_r.
Qed.

Lemma delete_permitted request req_id st u r :
  db_ok (db st) →
  session_user st = Authenticated u →
  r ∈ app_mytable (db st) →
  mt_id r = Some req_id →
  may_change u r →
  views.delete request req_id st =
    (Return (Redirect "details"),
     mkState (mkDatabase (auth_user (db st))
                (filter (λ x, mt_id x ≠ Some req_id) (app_mytable (db st)))
                (mytable_seq (db st)))
       (session_user st) (messages st)).
Proof.
  intros [Hkeys Howners] Hu Hr Hk Hmay.
  pose proof (objects_get_found st req_id r Hkeys Hr Hk) as Hget.
  destruct (related_user_found st r Howners Hr) as (owner & Hrel & _ & Hown).
  pose proof (may_change_passes u r owner Hmay Hown) as Hpass.
  unfold views.delete. rewrite (login_required_passes _ _ _ u Hu).
  unfold views.delete_view. run. rewrite Hget, Hrel, Hu. simpl in *. rewrite Hpass.
  unfold delete_instance. run. by rewrite Hk, ?Hu.
Qed.

(** X10. When a signed-in user deletes an existing record that is theirs,
    or any existing record as an administrator, the view redirects to
    [details] and the table loses that record and no other; the HTTP method
    is not looked at, so a GET deletes as well. *)
Theorem delete_removes_exactly_the_record request req_id st u r :
  db_ok (db st) →
  session_user st = Authenticated u →
  r ∈ app_mytable (db st) →
  mt_id r = Some req_id →
  may_change u r →
  let st' := (views.delete request req_id st).2 in
  (views.delete request req_id st).1 = Return (Redirect "details") ∧
  app_mytable (db st') `sublist_of` app_mytable (db st) ∧
  (∀ x, x ∈ app_mytable (db st') ↔ x ∈ app_mytable (db st) ∧ x ≠ r) ∧
  auth_user (db st') = auth_user (db st) ∧
  mytable_seq (db st') = mytable_seq (db st).
Proof.
  intros Hok Hu Hr Hk Hmay. rewrite (delete_permitted request req_id st u r) by done.
  simpl. split; [done|]. split; [apply sublist_filter|]. split; [|done].
  intros x. rewrite list_elem_of_filter. destruct Hok as [[Hnd _] _]. split.
  - intros [Hx Hin]. split; [done|]. intros ->. by apply Hx.
  - intros [Hin Hx]. split; [|done]. intros Hxk. apply Hx.
    pose proof (filter_key_unique _ r req_id Hnd Hr Hk) as Hf.
    assert (x ∈ filter (λ y, mt_id y = Some req_id) (app_mytable (db st))) as Hxf
      by (by apply list_elem_of_filter).
    rewrite Hf in Hxf. by apply list_elem_of_singleton in Hxf.
Qed.

Lemma delete_removes_exactly_the_record_witness :
  let st := fixtures.session (Authenticated fixtures.root) in
  let st' := (views.delete (fixtures.get_ []) 2 st).2 in
  (views.delete (fixtures.get_ []) 2 st).1 = Return (Redirect "details") ∧
  app_mytable (db st') `sublist_of` app_mytable fixtures.store ∧
  (∀ x, x ∈ app_mytable (db st') ↔
        x ∈ app_mytable fixtures.store ∧ x ≠ fixtures.contract 2 2 "zenith") ∧
  auth_user (db st') = auth_user fixtures.store ∧
  mytable_seq (db st') = 4.
Proof.
  apply (delete_removes_exactly_the_record (fixtures.get_ []) 2
           (fixtures.session (Authenticated fixtures.root)) fixtures.root
           (fixtures.contract 2 2 "zenith")).
  - exact fixtures_store_ok.
  - reflexivity.
  - apply (bool_decide_unpack _). vm_compute. exact I.
  - reflexivity.
  - right. reflexivity.
Defined.

(** X11. Once a record has been deleted, a further [delete] or [edit] of
    the same identifier by any signed-in user answers the server error
    "Record not found." and changes nothing. *)
Theorem deleted_record_is_gone MyTableForm_clean request request' req_id st u v r :
  db_ok (db st) →
  session_user st = Authenticated u →
  r ∈ app_mytable (db st) →
  mt_id r = Some req_id →
  may_change u r →
  let st' := (views.delete request req_id st).2 in
  let again := mkState (db st') (Authenticated v) (messages st') in
  views.delete request' req_id again =
    (Return (HttpResponseServerError "Record not found."), again) ∧
  views.edit MyTableForm_clean request' req_id again =
    (Return (HttpResponseServerError "Record not found."), again).
Proof.
  intros Hok Hu Hr Hk Hmay. rewrite (delete_permitted request req_id st u r) by done.
  simpl. set (again := mkState _ (Authenticated v) _).
  assert (∀ x, x ∈ app_mytable (db again) → mt_id x ≠ Some req_id) as Hgone.
  { intros x Hx. simpl in Hx. by apply list_elem_of_filter in Hx as [Hx _]. }
  unfold views.delete, views.edit.
  rewrite !(login_required_passes _ _ again v eq_refl).
  unfold views.delete_view, views.edit_view. run.
  by rewrite (objects_get_missing again req_id Hgone).
Qed.

Lemma deleted_record_is_gone_witness :
  let st := fixtures.session (Authenticated fixtures.alice) in
  let st' := (views.delete (fixtures.post_ []) 1 st).2 in
  let again := mkState (db st') (Authenticated fixtures.root) (messages st') in
  views.delete (fixtures.post_ []) 1 again =
    (Return (HttpResponseServerError "Record not found."), again) ∧
  views.edit fixtures.plain_form (fixtures.get_ []) 1 again =
    (Return (HttpResponseServerError "Record not found."), again).
Proof.
  apply (deleted_record_is_gone fixtures.plain_form (fixtures.post_ []) (fixtures.get_ []) 1
           (fixtures.session (Authenticated fixtures.alice)) fixtures.alice fixtures.root
           (fixtures.contract 1 1 "acme")).
  - exact fixtures_store_ok.
  - reflexivity.
  - apply (bool_decide_unpack _). vm_compute. exact I.
  - reflexivity.
  - left. reflexivity.
Defined.

Lemma edit_permitted_post MyTableForm_clean request req_id st u r cleaned :
  db_ok (db st) →
  session_user st = Authenticated u →
  r ∈ app_mytable (db st) →
  mt_id r = Some req_id →
  may_change u r →
  method request = "POST" →
  MyTableForm_clean (POST request) = Some cleaned →
  "user" ∉ cleaned.*1 →
  views.edit MyTableForm_clean request req_id st =
    (Return (Redirect "details"),
     mkState (mkDatabase (auth_user (db st))
                (replaced req_id (views.construct_instance cleaned r) (app_mytable (db st)))
                (mytable_seq (db st)))
       (session_user st) (messages st)).
Proof.
  intros [Hkeys Howners] Hu Hr Hk Hmay Hm Hc Hnu.
  pose proof (objects_get_found st req_id r Hkeys Hr Hk) as Hget.
  destruct (related_user_found st r Howners Hr) as (owner & Hrel & _ & Hown).
  pose proof (may_change_passes u r owner Hmay Hown) as Hpass.
  unfold views.edit. rewrite (login_required_passes _ _ _ u Hu).
  unfold views.edit_view. run. rewrite Hget, Hrel, Hu. simpl in *. rewrite Hpass, Hm.
  simpl. rewrite Hc. unfold save.
  rewrite construct_instance_user, construct_instance_id, Hown, Hk by done. run.
  rewrite bool_decide_eq_true_2 by (apply Exists_exists; by exists r).
  simpl. by rewrite ?Hu.
Qed.

(** X12. A valid edit submission by the owner of a record, or by an
    administrator, whose cleaned data carries no owner, redirects to
    [details] and rewrites that one row with the cleaned values: a lookup
    of the identifier afterwards yields the edited instance, it keeps key
    and owner, every other record is untouched and none is added. *)
Theorem edit_rewrites_exactly_the_record MyTableForm_clean request req_id st u r cleaned :
  db_ok (db st) →
  session_user st = Authenticated u →
  r ∈ app_mytable (db st) →
  mt_id r = Some req_id →
  may_change u r →
  method request = "POST" →
  MyTableForm_clean (POST request) = Some cleaned →
  "user" ∉ cleaned.*1 →
  let st' := (views.edit MyTableForm_clean request req_id st).2 in
  let edited := views.construct_instance cleaned r in
  (views.edit MyTableForm_clean request req_id st).1 = Return (Redirect "details") ∧
  objects_get req_id st' = (Return edited, st') ∧
  mt_id edited = mt_id r ∧ mt_user edited = mt_user r ∧
  length (app_mytable (db st')) = length (app_mytable (db st)) ∧
  (∀ i x, app_mytable (db st) !! i = Some x → x ≠ r →
          app_mytable (db st') !! i = Some x).
Proof.
  intros Hok Hu Hr Hk Hmay Hm Hc Hnu.
  rewrite (edit_permitted_post _ request req_id st u r cleaned) by done.
  simpl. set (edited := views.construct_instance cleaned r).
  assert (mt_id edited = Some req_id) as Hek
    by (unfold edited; by rewrite construct_instance_id).
  destruct Hok as [Hkeys _]. pose proof Hkeys as [Hnd _].
  split; [done|]. split; [|split; [congruence|split; [|split]]].
  - apply objects_get_found; simpl; [| |done].
    + apply (table_step_keys_ok (db st)); [done|].
      apply (step_update _ req_id r edited); try done.
      unfold edited. by rewrite construct_instance_user.
    + unfold replaced. apply list_elem_of_fmap. exists r.
      by rewrite bool_decide_eq_true_2.
  - unfold edited. by rewrite construct_instance_user.
  - unfold replaced. by rewrite length_fmap.
  - intros i x Hi Hx. unfold replaced. rewrite list_lookup_fmap, Hi. simpl.
    rewrite bool_decide_eq_false_2; [done|]. intros Hxk. apply Hx.
    pose proof (filter_key_unique _ r req_id Hnd Hr Hk) as Hf.
    assert (x ∈ filter (λ y, mt_id y = Some req_id) (app_mytable (db st))) as Hxf.
    { apply list_elem_of_filter. split; [done|]. by eapply list_elem_of_lookup_2. }
    rewrite Hf in Hxf. by apply list_elem_of_singleton in Hxf.
Qed.

Lemma edit_rewrites_exactly_the_record_witness :
  let request := fixtures.post_ [("client_name", "acme corp"); ("status", "closed")] in
  let st := fixtures.session (Authenticated fixtures.alice) in
  let st' := (views.edit fixtures.plain_form request 1 st).2 in
  let edited := views.construct_instance
                  [("client_name", VStr "acme corp"); ("status", VStr "closed")]
                  (fixtures.contract 1 1 "acme") in
  (views.edit fixtures.plain_form request 1 st).1 = Return (Redirect "details") ∧
  objects_get 1 st' = (Return edited, st') ∧
  mt_id edited = Some 1 ∧ mt_user edited = Some 1 ∧
  length (app_mytable (db st')) = 3 ∧
  (∀ i x, app_mytable fixtures.store !! i = Some x → x ≠ fixtures.contract 1 1 "acme" →
          app_mytable (db st') !! i = Some x).
Proof.
  apply (edit_rewrites_exactly_the_record fixtures.plain_form
           (fixtures.post_ [("client_name", "acme corp"); ("status", "closed")]) 1
           (fixtures.session (Authenticated fixtures.alice)) fixtures.alice
           (fixtures.contract 1 1 "acme")
           [("client_name", VStr "acme corp"); ("status", VStr "closed")]).
  - exact fixtures_store_ok.
  - reflexivity.
  - apply (bool_decide_unpack _). vm_compute. exact I.
  - reflexivity.
  - left. reflexivity.
  - reflexivity.
  - reflexivity.
  - apply (bool_decide_unpack _). vm_compute. exact I.
Defined.

(** X13. When the owner of a record, or an administrator, opens [edit]
    with another method than POST, or posts data the form rejects, nothing
    is written and the view renders [edit.html] with the contract type read
    from the stored row, the form (unbound on another method, bound to the
    posted data on POST) and the record: the stored instance on another
    method, and on a rejected POST the same object after the form's
    validation has gone over it. *)
Theorem edit_renders_form_without_writing MyTableForm_clean request req_id st u r :
  db_ok (db st) →
  session_user st = Authenticated u →
  r ∈ app_mytable (db st) →
  mt_id r = Some req_id →
  may_change u r →
  method request ≠ "POST" ∨ MyTableForm_clean (POST request) = None →
  views.edit MyTableForm_clean request req_id st =
    (Return (Render "edit.html"
               [("edit_detail", if method request =? "POST"
                                then CValidated r (POST request)
                                else CInstance r);
                ("contract_type", CValue (contract_type r));
                ("form", CForm (if method request =? "POST"
                                then BoundForm (POST request) (Some r)
                                else UnboundForm (Some r)))]),
     st).
Proof.
  intros [Hkeys Howners] Hu Hr Hk Hmay Hcase.
  pose proof (objects_get_found st req_id r Hkeys Hr Hk) as Hget.
  destruct (related_user_found st r Howners Hr) as (owner & Hrel & _ & Hown).
  pose proof (may_change_passes u r owner Hmay Hown) as Hpass.
  unfold views.edit. rewrite (login_required_passes _ _ _ u Hu).
  unfold views.edit_view. run. rewrite Hget, Hrel, Hu. simpl in *. rewrite Hpass.
  destruct (String.eqb_spec (method request) "POST") as [Hm|Hm]; [|done].
  destruct Hcase as [Hn|Hc]; [done|]. by rewrite Hc.
Qed.

Lemma edit_renders_form_without_writing_witness :
  let st := fixtures.session (Authenticated fixtures.root) in
  let r := fixtures.contract 2 2 "zenith" in
  let data := [("status", "closed")] in
  views.edit fixtures.plain_form (fixtures.post_ data) 2 st =
    (Return (Render "edit.html"
               [("edit_detail", CValidated r data);
                ("contract_type", CValue (VStr "fixed"));
                ("form", CForm (BoundForm data (Some r)))]),
     st).
Proof.
  apply (edit_renders_form_without_writing fixtures.plain_form
           (fixtures.post_ [("status", "closed")]) 2
           (fixtures.session (Authenticated fixtures.root)) fixtures.root
           (fixtures.contract 2 2 "zenith")).
  - exact fixtures_store_ok.
  - reflexivity.
  - apply (bool_decide_unpack _). vm_compute. exact I.
  - reflexivity.
  - right. reflexivity.
  - right. reflexivity.
Defined.

(** ** Creating a record *)

(** X14. For a signed-in user [addnew] stores nothing unless the request is
    a POST the form accepts: otherwise it renders [form.html], with the
    form bound to the posted data on POST and unbound on any other method. *)
Theorem addnew_renders_form_without_writing MyTableForm_clean request st u :
  session_user st = Authenticated u →
  method request ≠ "POST" ∨ MyTableForm_clean (POST request) = None →
  views.addnew MyTableForm_clean request st =
    (Return (Render "form.html"
               [("form", CForm (if method request =? "POST"
                                then BoundForm (POST request) None
                                else UnboundForm None))]),
     st).
Proof.
  intros Hu Hcase. unfold views.addnew. rewrite (login_required_passes _ _ _ u Hu).
  unfold views.addnew_view.
  destruct (String.eqb_spec (method request) "POST") as [Hm|Hm]; [|done].
  destruct Hcase as [Hn|Hc]; [done|]. run. by rewrite Hc.
Qed.

Lemma addnew_renders_form_without_writing_witness :
  let st := fixtures.session (Authenticated fixtures.bob) in
  views.addnew fixtures.plain_form (fixtures.post_ [("status", "open")]) st =
    (Return (Render "form.html"
               [("form", CForm (BoundForm [("status", "open")] None))]), st).
Proof.
  apply (addnew_renders_form_without_writing fixtures.plain_form
           (fixtures.post_ [("status", "open")])
           (fixtures.session (Authenticated fixtures.bob)) fixtures.bob).
  - reflexivity.
  - right. reflexivity.
Defined.

Lemma addnew_valid_post MyTableForm_clean request st u cleaned :
  session_user st = Authenticated u →
  method request = "POST" →
  MyTableForm_clean (POST request) = Some cleaned →
  views.addnew MyTableForm_clean request st =
    (Return (Redirect "details"),
     mkState (mkDatabase (auth_user (db st))
                (app_mytable (db st) ++ [created u cleaned (db st)])
                (S (mytable_seq (db st))))
       (session_user st) (messages st)).
Proof.
  destruct st as [d who msgs]; simpl; intros -> Hm Hc.
  unfold views.addnew, views.login_required, views.addnew_view.
  run. rewrite Hm, Hc. simpl. unfold assign_user, save. run.
  by rewrite construct_instance_id.
Qed.

(** X15. After a valid create submission by [u], the new record shows in
    the [details] list of a signed-in viewer, for a request whose filter
    lets it through, exactly when the viewer is an administrator or has the
    key of [u]: other users do not see it. *)
Theorem created_record_visibility MyTableForm_clean FormFilter request request'
    st u cleaned viewer queued :
  session_user st = Authenticated u →
  method request = "POST" →
  MyTableForm_clean (POST request) = Some cleaned →
  FormFilter (GET request') (created u cleaned (db st)) = true →
  let st1 := (views.addnew MyTableForm_clean request st).2 in
  ∃ qs, record_set (views.details FormFilter request'
                      (mkState (db st1) (Authenticated viewer) queued)).1 = Some qs ∧
        (created u cleaned (db st) ∈ qs ↔
         is_superuser viewer = true ∨ user_pk viewer = user_pk u).
Proof.
  intros Hu Hm Hc Hpass. rewrite (addnew_valid_post _ request st u cleaned) by done.
  simpl.
  rewrite (details_authenticated FormFilter request'
             (mkState _ (Authenticated viewer) queued) viewer eq_refl). simpl.
  eexists; split; [reflexivity|].
  rewrite list_elem_of_filter. unfold visible. simpl.
  destruct (is_superuser viewer).
  - split; [by left|]. intros _. split; [done|]. apply elem_of_app. right. by left.
  - rewrite list_elem_of_filter. simpl. split.
    + intros (_ & Hown & _). right. by injection Hown.
    + intros [?|Hpk]; [done|]. split; [done|]. split; [by rewrite Hpk|].
      apply elem_of_app. right. by left.
Qed.

Lemma created_record_visibility_witness :
  let request := fixtures.post_ [("client_name", "initech")] in
  let st := fixtures.session (Authenticated fixtures.alice) in
  let new := created fixtures.alice [("client_name", VStr "initech")] fixtures.store in
  let st1 := (views.addnew fixtures.plain_form request st).2 in
  ∃ qs, record_set (views.details field_filter (fixtures.get_ [("client_name", "initech")])
                      (mkState (db st1) (Authenticated fixtures.bob) [])).1 = Some qs ∧
        (new ∈ qs ↔ false = true ∨ 2 = 1).
Proof.
  apply (created_record_visibility fixtures.plain_form field_filter
           (fixtures.post_ [("client_name", "initech")])
           (fixtures.get_ [("client_name", "initech")])
           (fixtures.session (Authenticated fixtures.alice)) fixtures.alice
           [("client_name", VStr "initech")] fixtures.bob []);
    reflexivity.
Defined.

Lemma filter_keys_below (l : list MyTable) n r :
  Forall (key_below n) l → mt_id r = Some n →
  filter (λ x, mt_id x ≠ mt_id r) l = l.
Proof.
  intros Hlt Hr. induction Hlt as [|x l Hx _ IH]; [done|].
  rewrite filter_cons_True, IH; [done|].
  unfold key_below in Hx. rewrite Hr. destruct (mt_id x); [|done]. intros [= ->]. lia.
Qed.

(** X16. When a user whose account is in the database creates a record and
    then deletes it, the view redirects to [details] and the table of
    records is again what it was before the create; only the key sequence
    has moved on, so the key is not handed out again. *)
Theorem create_then_delete_roundtrip MyTableForm_clean request request' st u cleaned :
  keys_ok (db st) →
  requester_known (db st) (Authenticated u) →
  session_user st = Authenticated u →
  method request = "POST" →
  MyTableForm_clean (POST request) = Some cleaned →
  let st1 := (views.addnew MyTableForm_clean request st).2 in
  views.delete request' (mytable_seq (db st)) st1 =
    (Return (Redirect "details"),
     mkState (mkDatabase (auth_user (db st)) (app_mytable (db st))
                (S (mytable_seq (db st))))
       (session_user st) (messages st)).
Proof.
  intros Hkeys Hknown Hu Hm Hc.
  rewrite (addnew_valid_post _ request st u cleaned) by done. simpl.
  set (new := created u cleaned (db st)).
  set (st1 := mkState _ (session_user st) (messages st)).
  assert (keys_ok (db st1)) as Hkeys1.
  { apply (table_step_keys_ok (db st)); [done|]. by apply (step_insert _ new). }
  assert (objects_get (mytable_seq (db st)) st1 = (Return new, st1)) as Hget.
  { apply objects_get_found; [done| |done]. simpl. apply elem_of_app. right. by left. }
  destruct (related_user_known st1 new (user_pk u) eq_refl Hknown)
    as (owner & Hrel & Hpk).
  unfold views.delete. rewrite (login_required_passes _ _ st1 u Hu).
  unfold views.delete_view. run. rewrite Hget, Hrel. simpl. rewrite Hu. simpl.
  rewrite bool_decide_eq_true_2 by done. simpl.
  unfold delete_instance. run. do 3 f_equal; [|done].
  rewrite filter_app, filter_cons_False, filter_nil, app_nil_r by (by intros ?).
  exact (filter_keys_below (app_mytable (db st)) (mytable_seq (db st)) new
           (proj2 Hkeys) eq_refl).
Qed.

Lemma create_then_delete_roundtrip_witness :
  let st := fixtures.session (Authenticated fixtures.bob) in
  let st1 := (views.addnew fixtures.plain_form
                (fixtures.post_ [("client_name", "initech")]) st).2 in
  views.delete (fixtures.get_ []) 4 st1 =
    (Return (Redirect "details"),
     mkState (mkDatabase (auth_user fixtures.store) (app_mytable fixtures.store) 5)
       (Authenticated fixtures.bob) []).
Proof.
  apply (create_then_delete_roundtrip fixtures.plain_form
           (fixtures.post_ [("client_name", "initech")]) (fixtures.get_ [])
           (fixtures.session (Authenticated fixtures.bob)) fixtures.bob
           [("client_name", VStr "initech")]).
  - exact (proj1 fixtures_store_ok).
  - apply (bool_decide_unpack _). vm_compute. exact I.
  - reflexivity.
  - reflexivity.
  - reflexivity.
Defined.

(** ** Runs of operations: what stays well-formed *)

Lemma addnew_effect MyTableForm_clean request st :
  db (views.addnew MyTableForm_clean request st).2 = db st ∨
  ∃ u cleaned,
    session_user st = Authenticated u ∧
    db (views.addnew MyTableForm_clean request st).2 =
      mkDatabase (auth_user (db st)) (app_mytable (db st) ++ [created u cleaned (db st)])
        (S (mytable_seq (db st))).
Proof.
  destruct (session_user st) as [|u] eqn:Hu.
  { left. unfold views.addnew. by rewrite login_required_redirects. }
  destruct (String.eqb_spec (method request) "POST") as [Hm|Hm].
  - destruct (MyTableForm_clean (POST request)) as [cleaned|] eqn:Hc.
    + right. exists u, cleaned. split; [done|].
      by rewrite (addnew_valid_post _ request st u cleaned).
    + left. unfold views.addnew. rewrite (login_required_passes _ _ _ u Hu).
      unfold views.addnew_view. rewrite Hm. run. by rewrite Hc.
  - left. unfold views.addnew. rewrite (login_required_passes _ _ _ u Hu).
    unfold views.addnew_view. destruct (String.eqb_spec (method request) "POST"); done.
Qed.

Lemma edit_effect MyTableForm_clean request req_id st :
  form_excludes_owner MyTableForm_clean →
  db (views.edit MyTableForm_clean request req_id st).2 = db st ∨
  ∃ r new,
    r ∈ app_mytable (db st) ∧ mt_user new = mt_user r ∧
    db (views.edit MyTableForm_clean request req_id st).2 =
      mkDatabase (auth_user (db st)) (replaced req_id new (app_mytable (db st)))
        (mytable_seq (db st)).
Proof.
  intros Hform. unfold views.edit.
  destruct (session_user st) as [|u] eqn:Hu.
  { rewrite login_required_redirects by done. by left. }
  rewrite (login_required_passes _ _ _ u Hu). unfold views.edit_view. run.
  destruct (objects_get req_id st) as [[r|e] st1] eqn:Hget;
    apply objects_get_inv in Hget as [-> Hr]; [|destruct e; by left].
  destruct (Hr r eq_refl) as [Hin Hid].
  pose proof (related_user_state r st) as Hrel.
  destruct (related_user r st) as [[owner|e] st1]; simpl in Hrel; subst st1;
    [|destruct e; by left].
  destruct (negb _); simpl; [by left|].
  destruct (method request =? "POST"); simpl; [|by left].
  destruct (MyTableForm_clean (POST request)) as [cleaned|] eqn:Hc; simpl; [|by left].
  unfold save. rewrite construct_instance_id, construct_instance_user by eauto.
  destruct (mt_user r) as [owner_key|] eqn:Hown; run; [|by left].
  rewrite Hid. rewrite bool_decide_eq_true_2 by (apply Exists_exists; by exists r).
  simpl. right. exists r, (views.construct_instance cleaned r).
  split; [done|]. split; [|done]. rewrite construct_instance_user by eauto. done.
Qed.

Lemma delete_effect request req_id st :
  db (views.delete request req_id st).2 = db st ∨
  ∃ r, db (views.delete request req_id st).2 =
         mkDatabase (auth_user (db st))
           (filter (λ x, mt_id x ≠ mt_id r) (app_mytable (db st)))
           (mytable_seq (db st)).
Proof.
  unfold views.delete.
  destruct (session_user st) as [|u] eqn:Hu.
  { rewrite login_required_redirects by done. by left. }
  rewrite (login_required_passes _ _ _ u Hu). unfold views.delete_view. run.
  destruct (objects_get req_id st) as [[r|e] st1] eqn:Hget;
    apply objects_get_inv in Hget as [-> Hr]; [|destruct e; by left].
  pose proof (related_user_state r st) as Hrel.
  destruct (related_user r st) as [[owner|e] st1]; simpl in Hrel; subst st1;
    [|destruct e; by left].
  destruct (negb _); simpl; [by left|].
  unfold delete_instance. run. right. by exists r.
Qed.

Lemma perform_owners_ok MyTableForm_clean FormFilter d step :
  form_excludes_owner MyTableForm_clean →
  owners_ok d →
  requester_known d step.1 →
  owners_ok (perform MyTableForm_clean FormFilter d step) ∧
  auth_user (perform MyTableForm_clean FormFilter d step) = auth_user d.
Proof.
  intros Hform [Hfk Hnd] Hknown.
  destruct step as [who [request|request|request k|request k|now request]];
    unfold perform; simpl in *.
  - by rewrite details_state.
  - destruct (addnew_effect MyTableForm_clean request (mkState d who []))
      as [->|(u & cleaned & Hu & ->)]; simpl in *; [done|].
    subst who. split; [|done]. split; [|done]. simpl.
    apply Forall_app. split; [done|]. apply Forall_singleton. simpl.
    eapply Exists_impl; [exact Hknown|]. intros x Hx. simpl in Hx. by rewrite Hx.
  - destruct (edit_effect MyTableForm_clean request k (mkState d who []) Hform)
      as [->|(r & new & Hr & Hnew & ->)]; simpl in *; [done|].
    split; [|done]. split; [|done]. simpl. unfold replaced.
    rewrite Forall_fmap, Forall_forall. rewrite Forall_forall in Hfk.
    intros x Hx. unfold compose. case_bool_decide; [|by apply Hfk].
    rewrite Hnew. by apply Hfk.
  - destruct (delete_effect request k (mkState d who []))
      as [->|(r & ->)]; simpl in *; [done|].
    split; [|done]. split; [|done]. simpl.
    rewrite Forall_forall in *. intros x Hx.
    apply list_elem_of_filter in Hx as [_ Hx]. by apply Hfk.
  - by rewrite export_excel_state.
Qed.

(** X17. A run of list, create, edit, delete and export requests keeps the
    database well-formed when it starts well-formed, the form binds no
    owner and every signed-in requester is an account of the database: keys
    stay unique and below the sequence, every record's owner stays an
    existing account, and the accounts themselves are never touched. *)
Theorem run_keeps_database_well_formed MyTableForm_clean FormFilter steps d :
  form_excludes_owner MyTableForm_clean →
  db_ok d →
  Forall (λ step, requester_known d step.1) steps →
  db_ok (run_operations MyTableForm_clean FormFilter steps d) ∧
  auth_user (run_operations MyTableForm_clean FormFilter steps d) = auth_user d.
Proof.
  intros Hform. revert d. induction steps as [|step steps IH]; intros d Hok Hknown; [done|].
  apply Forall_cons in Hknown as [Hstep Hrest]. destruct Hok as [Hkeys Howners].
  destruct (perform_owners_ok _ FormFilter d step Hform Howners Hstep) as [Howners' Hacc].
  pose proof (table_step_keys_ok _ _ Hkeys
                (perform_step MyTableForm_clean FormFilter Hform d step)) as Hkeys'.
  simpl. destruct (IH (perform MyTableForm_clean FormFilter d step)) as [Hok' Hacc'].
  - by split.
  - eapply Forall_impl; [exact Hrest|]. intros [who op]. simpl.
    unfold requester_known. by rewrite Hacc.
  - split; [done|]. by rewrite Hacc'.
Qed.

Lemma run_keeps_database_well_formed_witness :
  let steps :=
    [(Authenticated fixtures.bob,
      OpCreate (fixtures.post_ [("client_name", "initech")]));
     (Authenticated fixtures.root,
      OpEdit (fixtures.post_ [("client_name", "acme corp")]) 1);
     (AnonymousUser, OpDelete (fixtures.post_ []) 2);
     (Authenticated fixtures.alice, OpDelete (fixtures.get_ []) 3);
     (Authenticated fixtures.alice, OpExport "2024-01-03" (fixtures.get_ []))] in
  db_ok (run_operations fixtures.plain_form field_filter steps fixtures.store) ∧
  auth_user (run_operations fixtures.plain_form field_filter steps fixtures.store) =
    auth_user fixtures.store.
Proof.
  apply (run_keeps_database_well_formed fixtures.plain_form field_filter).
  - exact plain_form_excludes_owner.
  - exact fixtures_store_ok.
  - apply (bool_decide_unpack _). vm_compute. exact I.
Defined.

Lemma table_step_accounts d d' : table_step d d' → auth_user d' = auth_user d.
Proof. by intros []. Qed.

Lemma save_accounts r st : auth_user (db (save r st).2) = auth_user (db st).
Proof.
  unfold save. destruct (mt_user r); [|done]. run.
  destruct (mt_id r); [|done]. by case_bool_decide.
Qed.

Lemma edit_accounts MyTableForm_clean request req_id st :
  auth_user (db (views.edit MyTableForm_clean request req_id st).2) = auth_user (db st).
Proof.
  unfold views.edit.
  destruct (session_user st) as [|u] eqn:Hu.
  { by rewrite login_required_redirects. }
  rewrite (login_required_passes _ _ _ u Hu). unfold views.edit_view. run.
  destruct (objects_get req_id st) as [[r|e] st1] eqn:Hget;
    apply objects_get_inv in Hget as [-> Hr]; [|by destruct e].
  pose proof (related_user_state r st) as Hrel.
  destruct (related_user r st) as [[owner|e] st1]; simpl in Hrel; subst st1;
    [|by destruct e].
  destruct (negb _); simpl; [done|].
  destruct (method request =? "POST"); simpl; [|done].
  destruct (MyTableForm_clean (POST request)) as [cleaned|]; simpl; [|done].
  pose proof (save_accounts (views.construct_instance cleaned r) st) as Hsave.
  destruct (save (views.construct_instance cleaned r) st) as [[saved|e] st1];
    simpl in *; [done|by destruct e].
Qed.

(** X18. No list, create, edit, delete or export request ever writes to
    the accounts: after any run, with any form and filter and any
    requesters, the table of accounts is the one the run started with. *)
Theorem record_operations_keep_accounts MyTableForm_clean FormFilter steps d :
  auth_user (run_operations MyTableForm_clean FormFilter steps d) = auth_user d.
Proof.
  revert d. induction steps as [|[who op] steps IH]; intros d; [done|].
  simpl. rewrite IH. unfold perform. destruct op as [rq|rq|rq k|rq k|now rq]; simpl.
  - by rewrite details_state.
  - apply table_step_accounts, (addnew_step _ _ (mkState d who [])).
  - apply (edit_accounts _ _ _ (mkState d who [])).
  - apply table_step_accounts, (delete_step _ _ (mkState d who [])).
  - by rewrite export_excel_state.
Qed.

(** ** More on the export *)

(** X19. For a signed-in requester [export_excel] returns a workbook
    exactly when the table to write fits the .xls format; with more than
    65535 visible records, or a value whose text is longer than 32767
    characters, the exception of [xlwt] leaves the view instead. *)
Theorem export_returns_iff_table_fits now request st u :
  owners_ok (db st) →
  session_user st = Authenticated u →
  (∃ response, (views.export_excel now request st).1 = Return response) ↔
  (N.of_nat (length (visible u (db st))) ≤ 65535)%N ∧
  Forall (Forall (λ v, (N.of_nat (String.length (str v)) ≤ 32767)%N))
    (export_rows u (db st)).
Proof.
  intros Hok Hu.
  assert (table_fits (export_rows u (db st)) ↔
          (N.of_nat (length (visible u (db st))) ≤ 65535)%N ∧
          Forall (Forall (λ v, (N.of_nat (String.length (str v)) ≤ 32767)%N))
            (export_rows u (db st))) as <-.
  { unfold table_fits, export_rows. by rewrite length_fmap. }
  destruct (export_excel_cases now request st u Hok Hu) as [[Hfit H]|[Hno [_ [e H]]]];
    rewrite H; simpl.
  - split; [done|]. intros _. by eexists.
  - split; [|done]. by intros [response ?].
Qed.

Lemma export_returns_iff_table_fits_witness :
  ∃ response,
    (views.export_excel "2024-01-03" (fixtures.get_ [])
       (fixtures.session (Authenticated fixtures.bob))).1 = Return response.
Proof.
  apply (export_returns_iff_table_fits "2024-01-03" (fixtures.get_ [])
           (fixtures.session (Authenticated fixtures.bob)) fixtures.bob).
  - exact (proj2 fixtures_store_ok).
  - reflexivity.
  - apply (bool_decide_unpack _). vm_compute. exact I.
Defined.

Lemma owner_name_of d r owner :
  owners_ok d → owner ∈ auth_user d → mt_user r = Some (user_pk owner) →
  owner_name d r = username owner.
Proof.
  intros [_ Hnd] Hin Hr. unfold owner_name.
  rewrite (filter_singleton user_pk _ _ owner); [done..|].
  intros y Hy. rewrite Hy in Hr. by injection Hr.
Qed.

(** X20. In the workbook an administrator exports, the header of the
    twelfth column is "User", in bold, and the twelfth cell of the row of
    the [k]-th stored record is the user name of the account that owns the
    record, not bold. *)
Theorem admin_export_owner_column now request st u content_type disposition name
    (sheet : Sheet) k r owner :
  owners_ok (db st) →
  session_user st = Authenticated u →
  is_superuser u = true →
  (views.export_excel now request st).1 =
    Return (ExcelResponse content_type disposition name sheet) →
  app_mytable (db st) !! k = Some r →
  owner ∈ auth_user (db st) →
  mt_user r = Some (user_pk owner) →
  (∃ header, sheet !! 0 = Some header ∧ header !! 11 = Some ("User", true)) ∧
  (∃ row, sheet !! S k = Some row ∧ row !! 11 = Some (username owner, false)).
Proof.
  intros Hok Hu Hs Hret Hk Hin Hr.
  destruct (export_excel_cases now request st u Hok Hu) as [[_ H]|[_ [_ [e H]]]];
    rewrite H in Hret; simpl in Hret; [|discriminate].
  unfold export_response in Hret. injection Hret as _ _ _ <-.
  unfold sheet_of, export_rows, export_columns, export_row, visible. rewrite Hs.
  split.
  - eexists. split; [by rewrite lookup_map_seq_0|]. reflexivity.
  - eexists. split.
    + rewrite lookup_map_seq_0. simpl. rewrite !list_lookup_fmap, Hk. reflexivity.
    + unfold row_of_cells. rewrite lookup_map_seq_0, list_lookup_fmap. simpl.
      by rewrite (owner_name_of _ _ owner).
Qed.

Lemma admin_export_owner_column_witness :
  ∃ sheet : Sheet,
    (views.export_excel "2024-01-03" (fixtures.get_ [])
       (fixtures.session (Authenticated fixtures.root))).1 =
      Return (ExcelResponse "application/ms-excel"
                "attachment; filename=Data_2024-01-03.xls" "Data" sheet) ∧
    (∃ header, sheet !! 0 = Some header ∧ header !! 11 = Some ("User", true)) ∧
    (∃ row, sheet !! 2 = Some row ∧ row !! 11 = Some ("bob", false)).
Proof.
  eexists. split; [vm_compute; reflexivity|].
  apply (admin_export_owner_column "2024-01-03" (fixtures.get_ [])
           (fixtures.session (Authenticated fixtures.root)) fixtures.root
           "application/ms-excel" "attachment; filename=Data_2024-01-03.xls" "Data"
           _ 1 (fixtures.contract 2 2 "zenith") fixtures.bob).
  - exact (proj2 fixtures_store_ok).
  - reflexivity.
  - reflexivity.
  - vm_compute. reflexivity.
  - reflexivity.
  - apply (bool_decide_unpack _). vm_compute. exact I.
  - reflexivity.
Defined.

(** ** What a user who is not an administrator cannot do *)

Lemma related_user_inv r st owner st' :
  related_user r st = (Return owner, st') → mt_user r = Some (user_pk owner).
Proof.
  unfold related_user. destruct (mt_user r) as [k|]; [|discriminate]. run.
  destruct (filter _ (auth_user (db st))) as [|x rest] eqn:Hf; [discriminate|].
  intros [= <- _].
  assert (x ∈ filter (λ y, user_pk y = k) (auth_user (db st))) as Hx
    by (rewrite Hf; left).
  apply list_elem_of_filter in Hx as [-> _]. done.
Qed.

Lemma not_may_change_denied u r owner :
  is_superuser u = false →
  mt_user r = Some (user_pk owner) →
  mt_user r ≠ Some (user_pk u) →
  negb (user_eq owner (Authenticated u) || is_superuser u) = true.
Proof.
  intros Hs Hown Hne. simpl. rewrite Hs, orb_false_r.
  rewrite bool_decide_eq_false_2; [done|]. intros Heq. apply Hne. by rewrite Hown, Heq.
Qed.

Lemma same_key_same_record (l : list MyTable) r x k :
  NoDup (mt_id <$> l) → r ∈ l → x ∈ l → mt_id r = Some k → mt_id x = Some k → x = r.
Proof.
  intros Hnd Hr Hx Hrk Hxk.
  pose proof (filter_key_unique l r k Hnd Hr Hrk) as Hf.
  assert (x ∈ filter (λ y, mt_id y = Some k) l) as Hin by (by apply list_elem_of_filter).
  rewrite Hf in Hin. by apply list_elem_of_singleton in Hin.
Qed.

Lemma perform_spares_foreign MyTableForm_clean FormFilter d who op u r :
  keys_ok d →
  is_superuser u = false →
  who = Authenticated u ∨ who = AnonymousUser →
  r ∈ app_mytable d →
  mt_user r ≠ Some (user_pk u) →
  r ∈ app_mytable (perform MyTableForm_clean FormFilter d (who, op)).
Proof.
  intros [Hnd _] Hs Hwho Hr Hne. unfold perform.
  destruct op as [rq|rq|rq k|rq k|now rq]; simpl.
  - by rewrite details_state.
  - destruct (addnew_effect MyTableForm_clean rq (mkState d who []))
      as [->|(v & cleaned & _ & ->)]; simpl; [done|].
    apply elem_of_app. by left.
  - unfold views.edit. destruct Hwho as [->| ->];
      [|by rewrite login_required_redirects].
    rewrite (login_required_passes _ _ (mkState d (Authenticated u) []) u eq_refl).
    unfold views.edit_view. run.
    set (st := mkState d (Authenticated u) []).
    destruct (objects_get k st) as [[r0|e] st1] eqn:Hget;
      apply objects_get_inv in Hget as [-> Hr0]; [|by destruct e].
    destruct (Hr0 r0 eq_refl) as [Hin Hid].
    pose proof (related_user_state r0 st) as Hrel.
    destruct (related_user r0 st) as [[owner|e] st1] eqn:Hrel';
      simpl in Hrel; subst st1; [|by destruct e].
    apply related_user_inv in Hrel'. simpl.
    destruct (decide (mt_user r0 = Some (user_pk u))) as [Hown|Hown];
      [|pose proof (not_may_change_denied u r0 owner Hs Hrel' Hown) as Hden;
        simpl in Hden; by rewrite Hden].
    destruct (negb _); simpl; [done|].
    destruct (method rq =? "POST"); simpl; [|done].
    destruct (MyTableForm_clean (POST rq)) as [cleaned|]; simpl; [|done].
    unfold save. rewrite construct_instance_id, Hid.
    destruct (mt_user (views.construct_instance cleaned r0)); run; [|done].
    rewrite bool_decide_eq_true_2 by (apply Exists_exists; by exists r0). simpl.
    apply list_elem_of_fmap. exists r. split; [|done].
    rewrite bool_decide_eq_false_2; [done|]. intros Hrk.
    apply Hne. by rewrite (same_key_same_record _ r0 r k Hnd Hin Hr Hid Hrk).
  - unfold views.delete. destruct Hwho as [->| ->];
      [|by rewrite login_required_redirects].
    rewrite (login_required_passes _ _ (mkState d (Authenticated u) []) u eq_refl).
    unfold views.delete_view. run.
    set (st := mkState d (Authenticated u) []).
    destruct (objects_get k st) as [[r0|e] st1] eqn:Hget;
      apply objects_get_inv in Hget as [-> Hr0]; [|by destruct e].
    destruct (Hr0 r0 eq_refl) as [Hin Hid].
    pose proof (related_user_state r0 st) as Hrel.
    destruct (related_user r0 st) as [[owner|e] st1] eqn:Hrel';
      simpl in Hrel; subst st1; [|by destruct e].
    apply related_user_inv in Hrel'. simpl.
    destruct (decide (mt_user r0 = Some (user_pk u))) as [Hown|Hown];
      [|pose proof (not_may_change_denied u r0 owner Hs Hrel' Hown) as Hden;
        simpl in Hden; by rewrite Hden].
    destruct (negb _); simpl; [done|].
    unfold delete_instance. run. apply list_elem_of_filter. split; [|done].
    rewrite Hid. intros Hrk.
    apply Hne. by rewrite (same_key_same_record _ r0 r k Hnd Hin Hr Hid Hrk).
  - by rewrite export_excel_state.
Qed.

(** X21. Whatever a user who is not an administrator requests, signed in
    or signed out, in any number of list, create, edit, delete and export
    requests, a record owned by somebody else stays in the table exactly
    as it is. *)
Theorem foreign_records_survive MyTableForm_clean FormFilter steps d u r :
  form_excludes_owner MyTableForm_clean →
  keys_ok d →
  is_superuser u = false →
  Forall (λ step, step.1 = Authenticated u ∨ step.1 = AnonymousUser) steps →
  r ∈ app_mytable d →
  mt_user r ≠ Some (user_pk u) →
  r ∈ app_mytable (run_operations MyTableForm_clean FormFilter steps d).
Proof.
  intros Hform Hkeys Hs Hsteps. revert d Hkeys.
  induction Hsteps as [|[who op] steps Hwho _ IH]; intros d Hkeys Hr Hne; [done|].
  simpl. apply IH.
  - apply (table_step_keys_ok d); [done|]. by apply perform_step.
  - by apply (perform_spares_foreign _ _ d who op u).
  - done.
Qed.

Lemma foreign_records_survive_witness :
  let steps :=
    [(Authenticated fixtures.bob, OpDelete (fixtures.post_ []) 1);
     (Authenticated fixtures.bob,
      OpEdit (fixtures.post_ [("client_name", "mine now")]) 3);
     (AnonymousUser, OpDelete (fixtures.get_ []) 1);
     (Authenticated fixtures.bob, OpDelete (fixtures.get_ []) 2);
     (Authenticated fixtures.bob,
      OpCreate (fixtures.post_ [("client_name", "initech")]))] in
  fixtures.contract 1 1 "acme" ∈
    app_mytable (run_operations fixtures.plain_form field_filter steps fixtures.store).
Proof.
  apply (foreign_records_survive fixtures.plain_form field_filter _ fixtures.store
           fixtures.bob).
  - exact plain_form_excludes_owner.
  - exact (proj1 fixtures_store_ok).
  - reflexivity.
  - apply (bool_decide_unpack _). vm_compute. exact I.
  - apply (bool_decide_unpack _). vm_compute. exact I.
  - vm_compute. discriminate.
Defined.

(** X22. [signout] ends the session whoever is signed in, also when
    nobody is: it redirects to sign-in, keeps database and messages, and
    [details], [addnew], [edit] and [delete] afterwards only redirect to
    sign-in until somebody signs in again. *)
Theorem signout_closes_the_views FormFilter MyTableForm_clean request request' req_id st :
  let st' := (views.signout request st).2 in
  views.signout request st =
    (Return (Redirect "signin"), mkState (db st) AnonymousUser (messages st)) ∧
  views.details FormFilter request' st' = (Return (Redirect "signin"), st') ∧
  views.addnew MyTableForm_clean request' st' = (Return (Redirect "signin"), st') ∧
  views.edit MyTableForm_clean request' req_id st' = (Return (Redirect "signin"), st') ∧
  views.delete request' req_id st' = (Return (Redirect "signin"), st').
Proof.
  simpl. split; [done|].
  unfold views.details, views.addnew, views.edit, views.delete.
  by rewrite !login_required_redirects.
Qed.
